(** * Blood-Donation: donor registry and proximity search

    A shallow embedding of [server.js]: the two Express handlers
    ([POST /api/donors], [GET /api/donors/search]), the [donors] table
    created by [initializeDatabase], and the two SQL statements the
    handlers send to the pool.

    What the repository fixes is modelled concretely: the truthiness
    validation, the order of the positional [?] parameters, the columns
    and constraints of [createTableQuery], the distance expression, the
    [WHERE] / [HAVING] / [ORDER BY] pipeline and the mapping of outcomes
    to HTTP statuses.  What the MySQL server decides on its own (the
    collation, how a bound value is converted to a column type, how text
    is read as a number, the DOUBLE arithmetic in which the distance is
    evaluated, in which order [ORDER BY] returns equal keys) is the
    interface [Engine].

    Numbers: a JSON number and a DECIMAL column are rationals ([Q]).  SQL
    DOUBLE arithmetic is an interface [Arith]; the query is evaluated in
    the arithmetic of the engine.  Two arithmetics are given: IEEE
    binary64 over a C library ([binary64_arith]), which is what a MySQL
    server computes in, and exact arithmetic on the reals ([real_arith]),
    in which the formula of the specification is read.

    Requests are handled one at a time: a handler issues a single SQL
    statement, which the server executes atomically.  The pool is assumed
    connected ([initializeDatabase] exits the process otherwise).  Request
    fields are JSON scalars; nested arrays and objects are outside the
    model. *)

From Stdlib Require Import ZArith QArith Reals Qreals Lra Lia.
From Stdlib Require Import List String Ascii Bool.
From Stdlib Require Import Permutation Sorted.
From Stdlib Require Import Floats.
Import ListNotations.

Local Open Scope string_scope.
Local Open Scope list_scope.

(** ** JavaScript values *)

Module Js.

(** The scalar values [express.json()] and the query-string parser put
    into [req.body] and [req.query]; a missing key reads as
    [undefined]. *)
Inductive Value : Type :=
| Undefined
| Null
| Boolean (b : bool)
| Number (q : Q)
| Str (s : string).

(** [!!v]: [undefined], [null], [false], [0] and [""] are falsy. *)
Definition truthy (v : Value) : bool :=
  match v with
  | Undefined | Null => false
  | Boolean b => b
  | Number q => negb (Qeq_bool q 0)
  | Str s => negb (String.eqb s "")
  end.

(** [!v] *)
Definition not (v : Value) : bool := negb (truthy v).

End Js.

(** ** SQL DOUBLE arithmetic *)

(** The numeric operations the distance expression of [searchQuery]
    uses.  [ACOS] is NULL ([None]) outside [-1, 1]. *)
Record Arith : Type := {
  num : Type;
  of_decimal : Q -> num;
  mul : num -> num -> num;
  add : num -> num -> num;
  sub : num -> num -> num;
  COS : num -> num;
  SIN : num -> num;
  ACOS : num -> option num;
  RADIANS : num -> num
}.

(** Exact arithmetic on the reals. *)
Definition real_acos (x : R) : option R :=
  if Rle_dec (-1) x then if Rle_dec x 1 then Some (acos x) else None
  else None.

Definition real_arith : Arith := {|
  num := R;
  of_decimal := Q2R;
  mul := Rmult;
  add := Rplus;
  sub := Rminus;
  COS := cos;
  SIN := sin;
  ACOS := real_acos;
  RADIANS := fun x => (x * (PI / 180))%R
|}.

(** The C library functions the server calls on doubles. *)
Record Libm : Type := {
  c_cos : float -> float;
  c_sin : float -> float;
  c_acos : float -> float
}.

Definition b64_of_Z (z : Z) : float :=
  match z with
  | Z0 => 0%float
  | Zpos _ => PrimFloat.of_uint63 (Uint63.of_Z z)
  | Zneg p => PrimFloat.opp (PrimFloat.of_uint63 (Uint63.of_Z (Zpos p)))
  end.

(** Nearest double of a decimal whose numerator and denominator are
    below 2^53 (one correctly rounded division). *)
Definition b64_of_decimal (q : Q) : float :=
  PrimFloat.div (b64_of_Z (Qnum q)) (b64_of_Z (Zpos (Qden q))).

Definition M_PI : float := 0x1.921fb54442d18p+1%float.

(** ACOS of the server: NULL when [value < -1.0 || value > 1.0]. *)
Definition b64_acos (m : Libm) (value : float) : option float :=
  if PrimFloat.ltb value (-1)%float || PrimFloat.ltb 1%float value
  then None else Some (c_acos m value).

(** RADIANS of the server: [value * (M_PI / 180) + 0.0]. *)
Definition b64_radians (value : float) : float :=
  PrimFloat.add (PrimFloat.mul value (PrimFloat.div M_PI 180%float)) 0%float.

(** IEEE binary64 arithmetic over a C library. *)
Definition binary64_arith (m : Libm) : Arith := {|
  num := float;
  of_decimal := b64_of_decimal;
  mul := PrimFloat.mul;
  add := PrimFloat.add;
  sub := PrimFloat.sub;
  COS := c_cos m;
  SIN := c_sin m;
  ACOS := b64_acos m;
  RADIANS := b64_radians
|}.

(** The number a double stands for.  A DOUBLE of the server is never an
    infinity or a NaN; these read as 0 here. *)
Definition b64_to_Q (f : float) : Q :=
  match Prim2SF f with
  | S754_finite negative m e =>
      let magnitude :=
        match e with
        | Z0 => Zpos m # 1
        | Zpos k => (Zpos m * 2 ^ Zpos k)%Z # 1
        | Zneg k => Zpos m # (2 ^ k)%positive
        end in
      if negative then Qopp magnitude else magnitude
  | _ => 0
  end.

Definition b64_value (f : float) : R := Q2R (b64_to_Q f).

(** ** SQL values and the server interface *)

Module Sql.

(** A value bound to a [?] placeholder. *)
Inductive Value : Type :=
| NULL
| Num (q : Q)
| Text (s : string).

(** How mysql2 writes a JavaScript value into the statement:
    [undefined] and [null] become NULL, booleans the literals
    [true] / [false] (1 and 0), numbers and strings themselves. *)
Definition escape (v : Js.Value) : Value :=
  match v with
  | Js.Undefined | Js.Null => NULL
  | Js.Boolean b => Num (if b then 1 else 0)
  | Js.Number q => Num q
  | Js.Str s => Text s
  end.

(** The [i]-th [?] of a statement, counted from 0. *)
Definition placeholder (params : list Value) (i : nat) : Value :=
  nth i params NULL.

Inductive Error : Type :=
| ER_DUP_ENTRY
| ER_BAD_VALUE.   (* any other rejection: NULL in a NOT NULL column,
                     a value the column type does not take *)

End Sql.

(** A row of the result of [searchQuery]: the select list
    [id, name, bloodGroup, phone, latitude, longitude, ... AS distance]. *)
Record Match : Type := mkMatch {
  m_id : Z;
  m_name : string;
  m_bloodGroup : string;
  m_phone : string;
  m_latitude : Q;
  m_longitude : Q;
  m_distance : R
}.

Definition by_distance (a b : Match) : Prop := (m_distance a <= m_distance b)%R.

(** The behaviour of the MySQL server that [server.js] relies on without
    fixing it. *)
Class Engine : Type := {
  (** [=] on two strings under the collation of the column *)
  collate_eqb : string -> string -> bool;
  collate_refl : forall s, collate_eqb s s = true;
  (** storing a non-NULL value into VARCHAR(n), INT, TEXT, DECIMAL(p,s);
      [None] is a rejected statement *)
  to_varchar : nat -> Sql.Value -> option string;
  to_varchar_fits :
    forall n s, (String.length s <= n)%nat -> to_varchar n (Sql.Text s) = Some s;
  to_int : Sql.Value -> option Z;
  to_text : Sql.Value -> option string;
  to_decimal : nat -> nat -> Sql.Value -> option Q;
  (** text read in a numeric context *)
  text_to_double : string -> Q;
  (** the DOUBLE arithmetic of the server, [<] on two DOUBLEs, and the
      number a DOUBLE of a result row is *)
  double_arith : Arith;
  double_lt : num double_arith -> num double_arith -> bool;
  double_value : num double_arith -> R;
  (** [ORDER BY distance]: some rearrangement with non-decreasing keys *)
  order_by_distance : list Match -> list Match;
  order_by_perm : forall l, Permutation l (order_by_distance l);
  order_by_sorted : forall l, StronglySorted by_distance (order_by_distance l)
}.

(** NULL-propagating expressions over an arithmetic. *)
Module Expr.
Section WithArith.

Context (A : Arith).

Definition dbl : Type := option (num A).

Definition lift1 (f : num A -> num A) (x : dbl) : dbl :=
  match x with Some a => Some (f a) | None => None end.

Definition lift2 (f : num A -> num A -> num A) (x y : dbl) : dbl :=
  match x, y with Some a, Some b => Some (f a b) | _, _ => None end.

Definition times : dbl -> dbl -> dbl := lift2 (mul A).
Definition plus : dbl -> dbl -> dbl := lift2 (add A).
Definition minus : dbl -> dbl -> dbl := lift2 (sub A).
Definition cos : dbl -> dbl := lift1 (COS A).
Definition sin : dbl -> dbl := lift1 (SIN A).
Definition radians : dbl -> dbl := lift1 (RADIANS A).
Definition acos (x : dbl) : dbl :=
  match x with Some a => ACOS A a | None => None end.
Definition const (z : Z) : dbl := Some (of_decimal A (inject_Z z)).

End WithArith.

Arguments times {A} _ _.
Arguments plus {A} _ _.
Arguments minus {A} _ _.
Arguments cos {A} _.
Arguments sin {A} _.
Arguments radians {A} _.
Arguments acos {A} _.

End Expr.

Declare Scope sql_scope.
Delimit Scope sql_scope with sql.
Notation "x * y" := (Expr.times x y) : sql_scope.
Notation "x + y" := (Expr.plus x y) : sql_scope.
Notation "x - y" := (Expr.minus x y) : sql_scope.

(** The select-list expression of [searchQuery]:
    [( 6371 * acos( cos( radians(?) ) * cos( radians( latitude ) )
       * cos( radians( longitude ) - radians(?) )
       + sin( radians(?) ) * sin( radians( latitude ) ) ) ) AS distance]
    with [p0], [p1], [p2] the three placeholders in the order they
    occur. *)
Definition distance_expr (A : Arith)
    (p0 p1 p2 : Expr.dbl A) (latitude longitude : Expr.dbl A) : Expr.dbl A :=
  (Expr.const A 6371 *
   Expr.acos (Expr.cos (Expr.radians p0) * Expr.cos (Expr.radians latitude)
                * Expr.cos (Expr.radians longitude - Expr.radians p1)
              + Expr.sin (Expr.radians p2) * Expr.sin (Expr.radians latitude)))%sql.

(** ** The donors table *)

(** A row of [donors] (the columns of [createTableQuery];
    [registration_date] is never read and is left out). *)
Module Donor.
Record t : Type := make {
  id : Z;
  name : string;
  age : Z;
  bloodGroup : string;
  phone : string;
  email : string;
  address : string;
  latitude : Q;
  longitude : Q
}.
End Donor.

Record Table : Type := mkTable {
  rows : list Donor.t;       (* in storage order *)
  auto_increment : Z         (* next value of [id INT AUTO_INCREMENT] *)
}.

(** The largest INT.  The counter of [id INT AUTO_INCREMENT] goes up
    by one with every value it hands out and stops at the largest:
    from then on every insertion is given that value. *)
Definition INT_MAX : Z := 2147483647.

Definition next_id (id : Z) : Z := Z.min (id + 1) INT_MAX.

(** The table [CREATE TABLE IF NOT EXISTS] makes on a fresh database. *)
Definition empty_table : Table := {| rows := []; auto_increment := 1 |}.

(** A statement sent through [db.query], with its bound values. *)
Inductive Statement : Type :=
| InsertDonor (params : list Sql.Value)
| SelectDonors (params : list Sql.Value).

(** The pool: the table and the statements sent so far. *)
Record World : Type := mkWorld {
  donors : Table;
  sent : list Statement
}.

Definition initial : World := {| donors := empty_table; sent := [] |}.

(** [req.body] of [POST /api/donors] *)
Module Body.
Record t : Type := make {
  name : Js.Value;
  age : Js.Value;
  bloodGroup : Js.Value;
  phone : Js.Value;
  email : Js.Value;
  address : Js.Value;
  latitude : Js.Value;
  longitude : Js.Value
}.
End Body.

(** [req.query] of [GET /api/donors/search] *)
Module Query.
Record t : Type := make {
  latitude : Js.Value;
  longitude : Js.Value;
  bloodGroup : Js.Value
}.
End Query.

(** [res.status(...).json(...)]: the status with the part of the
    payload that varies. *)
Inductive Response : Type :=
| Status200 (donors : list Match)
| Status201 (donorId : Z)
| Status400
| Status409
| Status500.

(** The columns [searchQuery] selects from a row, with its distance. *)
Definition as_match (d : Donor.t) (distance : R) : Match :=
  mkMatch (Donor.id d) (Donor.name d) (Donor.bloodGroup d) (Donor.phone d)
          (Donor.latitude d) (Donor.longitude d) distance.

Notation "x <- c ;; k" :=
  (match c with Some x => k | None => None end)
  (at level 61, c at next level, right associativity).

Section WithEngine.

Context {E : Engine}.

(** A [NOT NULL] column of the given storage conversion. *)
Definition not_null {T : Type} (store : Sql.Value -> option T)
    (v : Sql.Value) : option T :=
  match v with
  | Sql.NULL => None
  | _ => store v
  end.

(** The values of [insertQuery] converted to the columns
    [(name, age, bloodGroup, phone, email, address, latitude, longitude)],
    in the order of the [?]s; the id is still to be assigned. *)
Definition insert_columns (params : list Sql.Value) : option (Z -> Donor.t) :=
  let p := Sql.placeholder params in
  name <- not_null (to_varchar 255) (p 0%nat) ;;
  age <- not_null to_int (p 1%nat) ;;
  bloodGroup <- not_null (to_varchar 3) (p 2%nat) ;;
  phone <- not_null (to_varchar 20) (p 3%nat) ;;
  email <- not_null (to_varchar 255) (p 4%nat) ;;
  address <- not_null to_text (p 5%nat) ;;
  latitude <- not_null (to_decimal 10 8) (p 6%nat) ;;
  longitude <- not_null (to_decimal 11 8) (p 7%nat) ;;
  Some (fun id =>
          Donor.make id name age bloodGroup phone email address
                     latitude longitude).

(** [phone VARCHAR(20) NOT NULL UNIQUE]: is the key already there? *)
Definition phone_taken (phone : string) (t : Table) : bool :=
  existsb (fun d => collate_eqb (Donor.phone d) phone) (rows t).

(** [id INT AUTO_INCREMENT PRIMARY KEY]: is the key already there? *)
Definition id_taken (id : Z) (t : Table) : bool :=
  existsb (fun d => Z.eqb (Donor.id d) id) (rows t).

(** [INSERT INTO donors (...) VALUES (?, ?, ?, ?, ?, ?, ?, ?)].
    Values are converted first; the row is given the value of the
    counter as its id; then the primary key and the unique index on
    [phone] are checked, and either duplicate is ER_DUP_ENTRY.  An
    attempt uses up the value it was given, also when it fails
    (InnoDB). *)
Definition insertQuery (params : list Sql.Value) (t : Table)
    : (Sql.Error + Z) * Table :=
  match insert_columns params with
  | None => (inl Sql.ER_BAD_VALUE, t)
  | Some row =>
      let insertId := auto_increment t in
      if id_taken insertId t || phone_taken (Donor.phone (row insertId)) t
      then (inl Sql.ER_DUP_ENTRY,
            {| rows := rows t; auto_increment := next_id insertId |})
      else (inr insertId,
            {| rows := rows t ++ [row insertId];
               auto_increment := next_id insertId |})
  end.

(** The presence check of [POST /api/donors]:
    [!name || !age || !bloodGroup || !phone || !latitude || !longitude] *)
Definition register_rejects (b : Body.t) : bool :=
  Js.not (Body.name b) || Js.not (Body.age b) || Js.not (Body.bloodGroup b)
  || Js.not (Body.phone b) || Js.not (Body.latitude b)
  || Js.not (Body.longitude b).

Definition insert_params (b : Body.t) : list Sql.Value :=
  map Sql.escape
      [Body.name b; Body.age b; Body.bloodGroup b; Body.phone b;
       Body.email b; Body.address b; Body.latitude b; Body.longitude b].

(** [app.post('/api/donors', ...)] *)
Definition register (b : Body.t) (w : World) : Response * World :=
  if register_rejects b then (Status400, w)
  else
    let params := insert_params b in
    let (result, t') := insertQuery params (donors w) in
    let w' := {| donors := t'; sent := sent w ++ [InsertDonor params] |} in
    match result with
    | inr insertId => (Status201 insertId, w')
    | inl Sql.ER_DUP_ENTRY => (Status409, w')
    | inl _ => (Status500, w')
    end.

(** A bound value read as a DOUBLE. *)
Definition sql_double (A : Arith) (v : Sql.Value) : Expr.dbl A :=
  match v with
  | Sql.NULL => None
  | Sql.Num q => Some (of_decimal A q)
  | Sql.Text s => Some (of_decimal A (text_to_double s))
  end.

(** [bloodGroup = ?]; a NULL or false comparison does not select the
    row; text against a number is compared as numbers. *)
Definition where_bloodGroup (v : Sql.Value) (d : Donor.t) : bool :=
  match v with
  | Sql.NULL => false
  | Sql.Text s => collate_eqb (Donor.bloodGroup d) s
  | Sql.Num q => Qeq_bool (text_to_double (Donor.bloodGroup d)) q
  end.

(** [FROM donors WHERE bloodGroup = ?], in storage order. *)
Definition findByBloodGroup (v : Sql.Value) (t : Table) : list Donor.t :=
  filter (where_bloodGroup v) (rows t).

(** The [distance] column of [searchQuery] for one row: placeholders
    0, 1, 2 and the row's [latitude] and [longitude]. *)
Definition searchQuery_distance (A : Arith) (params : list Sql.Value)
    (d : Donor.t) : Expr.dbl A :=
  let p := Sql.placeholder params in
  distance_expr A (sql_double A (p 0%nat)) (sql_double A (p 1%nat))
                (sql_double A (p 2%nat))
                (Some (of_decimal A (Donor.latitude d)))
                (Some (of_decimal A (Donor.longitude d))).

(** [distance < ?] in [HAVING]: NULL on either side drops the row. *)
Definition having_lt (distance bound : Expr.dbl double_arith) : bool :=
  match distance, bound with
  | Some x, Some y => double_lt x y
  | _, _ => false
  end.

(** The select list and the [HAVING distance < ?] filter for one row
    of the [WHERE] result, evaluated by the server. *)
Definition select_having (params : list Sql.Value) (d : Donor.t)
    : list Match :=
  let distance := searchQuery_distance double_arith params d in
  if having_lt distance (sql_double double_arith (Sql.placeholder params 4%nat))
  then match distance with
       | Some x => [as_match d (double_value x)]
       | None => []
       end
  else [].

(** [searchQuery]:
    [SELECT ..., (...) AS distance FROM donors WHERE bloodGroup = ?
     HAVING distance < ? ORDER BY distance] *)
Definition searchQuery (params : list Sql.Value) (t : Table) : list Match :=
  order_by_distance
    (flat_map (select_having params)
              (findByBloodGroup (Sql.placeholder params 3%nat) t)).

Definition searchRadiusKm : Js.Value := Js.Number 15.

(** The presence check of [GET /api/donors/search]:
    [!latitude || !longitude || !bloodGroup] *)
Definition search_rejects (q : Query.t) : bool :=
  Js.not (Query.latitude q) || Js.not (Query.longitude q)
  || Js.not (Query.bloodGroup q).

Definition search_params (q : Query.t) : list Sql.Value :=
  map Sql.escape
      [Query.latitude q; Query.longitude q; Query.latitude q;
       Query.bloodGroup q; searchRadiusKm].

(** [app.get('/api/donors/search', ...)] *)
Definition search (q : Query.t) (w : World) : Response * World :=
  if search_rejects q then (Status400, w)
  else
    let params := search_params q in
    let found := searchQuery params (donors w) in
    (Status200 found,
     {| donors := donors w; sent := sent w ++ [SelectDonors params] |}).

End WithEngine.

(** ** Runs of the server *)

Inductive Request : Type :=
| PostDonor (b : Body.t)
| GetSearch (q : Query.t).

Section Runs.

Context {E : Engine}.

Definition handle (r : Request) (w : World) : Response * World :=
  match r with
  | PostDonor b => register b w
  | GetSearch q => search q w
  end.

(** The states of the pool after any sequence of requests. *)
Inductive reachable : World -> Prop :=
| reach_initial : reachable initial
| reach_handle r w : reachable w -> reachable (snd (handle r w)).

(** The table invariant of the two keys: ids distinct, phones
    distinct. *)
Definition table_ok (t : Table) : Prop :=
  NoDup (map Donor.id (rows t))
  /\ NoDup (map Donor.phone (rows t)).

End Runs.

(** ** The formula of the specification *)

Definition deg_to_rad (x : R) : R := (x * PI / 180)%R.

(** [R * acos(cos(lat1) cos(lat2) cos(lon2 - lon1) + sin(lat1) sin(lat2))]
    with the angles in radians and [R = 6371]. *)
Definition spherical_law_of_cosines (lat1 lon1 lat2 lon2 : R) : R :=
  (6371 * acos (Rtrigo_def.cos (deg_to_rad lat1) * Rtrigo_def.cos (deg_to_rad lat2)
                * Rtrigo_def.cos (deg_to_rad lon2 - deg_to_rad lon1)
                + Rtrigo_def.sin (deg_to_rad lat1) * Rtrigo_def.sin (deg_to_rad lat2)))%R.

(** The same formula read in an arithmetic [A], on degrees; it has no
    value where [ACOS] has none. *)
Definition spherical_law_in (A : Arith) (lat1 lon1 lat2 lon2 : num A)
    : option (num A) :=
  match ACOS A (add A (mul A (mul A (COS A (RADIANS A lat1))
                                    (COS A (RADIANS A lat2)))
                             (COS A (sub A (RADIANS A lon2)
                                           (RADIANS A lon1))))
                      (mul A (SIN A (RADIANS A lat1))
                             (SIN A (RADIANS A lat2)))) with
  | Some angle => Some (mul A (of_decimal A (inject_Z 6371)) angle)
  | None => None
  end.

(** ** A plain server

    The conversions and the sort of the engine used below: the binary
    collation, columns that take only values already of their type, text
    read as a plain decimal, and [ORDER BY] by insertion. *)

Module Plain.

Definition Rleb (x y : R) : bool := if Rle_dec x y then true else false.

(** Insertion by distance; [goes_before x y]: the new key [x] is put in
    front of [y]. *)
Fixpoint insert (goes_before : R -> R -> bool) (x : Match) (l : list Match)
    : list Match :=
  match l with
  | [] => [x]
  | y :: l' =>
      if goes_before (m_distance x) (m_distance y) then x :: l
      else y :: insert goes_before x l'
  end.

Definition sort (goes_before : R -> R -> bool) (l : list Match) : list Match :=
  fold_right (insert goes_before) [] l.

(** VARCHAR(n) and TEXT take text that fits; INT takes whole numbers
    in range; DECIMAL(p,s) takes numbers with at most [s] decimals and
    [p - s] integer digits. *)
Definition varchar (n : nat) (v : Sql.Value) : option string :=
  match v with
  | Sql.Text s => if (String.length s <=? n)%nat then Some s else None
  | _ => None
  end.

Definition int (v : Sql.Value) : option Z :=
  match v with
  | Sql.Num q =>
      let r := Qred q in
      if Pos.eqb (Qden r) 1
         && Z.leb (- 2147483648) (Qnum r) && Z.leb (Qnum r) 2147483647
      then Some (Qnum r) else None
  | _ => None
  end.

Definition text (v : Sql.Value) : option string :=
  match v with
  | Sql.Text s =>
      if Z.leb (Z.of_nat (String.length s)) 65535 then Some s else None
  | _ => None
  end.

Definition decimal (p s : nat) (v : Sql.Value) : option Q :=
  match v with
  | Sql.Num q =>
      let r := Qred q in
      if Z.eqb (Z.modulo (10 ^ Z.of_nat s) (Zpos (Qden r))) 0
         && Z.ltb (Z.abs (Qnum r)) (10 ^ Z.of_nat (p - s) * Zpos (Qden r))
      then Some r else None
  | _ => None
  end.

(** Text as a number: an optional [-], digits, an optional [.] and
    digits; reading stops at the first other character. *)
Definition digit (c : ascii) : option Z :=
  let n := Z.of_nat (nat_of_ascii c) in
  if Z.leb 48 n && Z.leb n 57 then Some (n - 48)%Z else None.

Fixpoint read_decimal (s : string) (fraction : bool)
    (numerator : Z) (denominator : positive) : Q :=
  match s with
  | EmptyString => numerator # denominator
  | String c s' =>
      match digit c with
      | Some d =>
          read_decimal s' fraction (10 * numerator + d)
                       (if fraction then 10 * denominator else denominator)
      | None =>
          if Ascii.eqb c "."%char && negb fraction
          then read_decimal s' true numerator denominator
          else numerator # denominator
      end
  end.

Definition decimal_of_text (s : string) : Q :=
  match s with
  | String "-"%char s' => Qopp (read_decimal s' false 0 1)
  | _ => read_decimal s false 0 1
  end.

End Plain.

(** ** Sample requests and rows *)

Definition asha : Body.t :=
  Body.make (Js.Str "Asha") (Js.Number 30) (Js.Str "O+") (Js.Str "5550100")
            (Js.Str "asha@example.org") (Js.Str "Connaught Place, Delhi")
            (Js.Number 28.6139) (Js.Number 77.2090).

(** Same phone as [asha]. *)
Definition ravi : Body.t :=
  Body.make (Js.Str "Ravi") (Js.Number 41) (Js.Str "A+") (Js.Str "5550100")
            (Js.Str "ravi@example.org") (Js.Str "Rohini, Delhi")
            (Js.Number 28.7041) (Js.Number 77.1025).

(** Same place as [asha], another phone. *)
Definition meera : Body.t :=
  Body.make (Js.Str "Meera") (Js.Number 35) (Js.Str "O+") (Js.Str "5550101")
            (Js.Str "meera@example.org") (Js.Str "Connaught Place, Delhi")
            (Js.Number 28.6139) (Js.Number 77.2090).

Definition on_the_equator : Body.t :=
  Body.make (Js.Str "Kofi") (Js.Number 28) (Js.Str "B+") (Js.Str "5550102")
            (Js.Str "kofi@example.org") (Js.Str "Pontianak")
            (Js.Number 0) (Js.Number 109.3425).

Definition latitude_95 : Body.t :=
  Body.make (Js.Str "Nora") (Js.Number 52) (Js.Str "AB-") (Js.Str "5550103")
            (Js.Str "nora@example.org") (Js.Str "nowhere")
            (Js.Number 95) (Js.Number 10).

Definition from_delhi (bloodGroup : string) : Query.t :=
  Query.make (Js.Str "28.6139") (Js.Str "77.2090") (Js.Str bloodGroup).

Definition from_latitude_95 : Query.t :=
  Query.make (Js.Str "95") (Js.Str "200") (Js.Str "O+").

(** Rows of the table: the ones [register] writes for [asha] and then
    for [meera], and a donor in Rohini. *)
Definition asha_row : Donor.t :=
  Donor.make 1 "Asha" 30 "O+" "5550100" "asha@example.org"
             "Connaught Place, Delhi" 28.6139 77.209.


Definition rohini_row : Donor.t :=
  Donor.make 1 "Ravi" 41 "A+" "5550110" "ravi@example.org"
             "Rohini, Delhi" 28.7041 77.1025.

(** A donor at the origin [from_delhi] searches from. *)
Definition delhi_row : Donor.t :=
  Donor.make 2 "Asha" 30 "A+" "5550100" "asha@example.org"
             "Connaught Place, Delhi" 28.6139 77.2090.

Definition from_rohini (bloodGroup : string) : Query.t :=
  Query.make (Js.Str "28.7041") (Js.Str "77.1025") (Js.Str bloodGroup).

(** The centre the front end opens its map on. *)
Definition from_india_centre (bloodGroup : string) : Query.t :=
  Query.make (Js.Str "20.5937") (Js.Str "78.9629") (Js.Str bloodGroup).

Definition india_centre_row : Donor.t :=
  Donor.make 1 "Dev" 33 "B+" "5550120" "dev@example.org" "Nagpur"
             20.5937 78.9629.

(** The doubles a C library gives for the cosine and the sine of
    [radians(20.5937)], and [cos(0) = 1]; [acos] is not reached. *)
Definition recorded_libm : Libm := {|
  c_cos := fun x =>
    if PrimFloat.eqb x 0%float then 1%float
    else 0x1.df4843f87dee2p-1%float;
  c_sin := fun _ => 0x1.682e320069e02p-2%float;
  c_acos := fun x => x
|}.

Definition dev : Body.t :=
  Body.make (Js.Str "Dev") (Js.Number 33) (Js.Str "B+") (Js.Str "5550120")
            (Js.Str "dev@example.org") (Js.Str "Nagpur")
            (Js.Number 20.5937) (Js.Number 78.9629).

(** The doubles a C library gives at the arguments of the search from
    Delhi for the row in Rohini: the cosines of [radians(28.6139)], of
    [radians(28.7041)] and of [radians(77.1025) - radians(77.2090)],
    the sines of the two latitudes, and the arc cosine of the sum. *)
Definition delhi_libm : Libm := {|
  c_cos := fun x =>
    if PrimFloat.eqb x 0x1.ff647ccbda95p-2%float
    then 0x1.c177c278189b7p-1%float
    else if PrimFloat.eqb x 0x1.008096b428e04p-1%float
         then 0x1.c114cc296d18bp-1%float
         else 0x1.ffffc608b0d2p-1%float;
  c_sin := fun x =>
    if PrimFloat.eqb x 0x1.ff647ccbda95p-2%float
    then 0x1.ea6607fda8f7ap-2%float
    else 0x1.ebd02989673f1p-2%float;
  c_acos := fun _ => 0x1.291fb5113b72fp-9%float
|}.

(** * Properties *)

(** ** The engine of the examples *)

Section InsertionSort.

Variable goes_before : R -> R -> bool.
Hypothesis before_le : forall x y, goes_before x y = true -> (x <= y)%R.
Hypothesis after_le : forall x y, goes_before x y = false -> (y <= x)%R.

Lemma insert_perm x l : Permutation (x :: l) (Plain.insert goes_before x l).
Proof.
  induction l as [|y l IH]; simpl; [reflexivity|].
  destruct (goes_before _ _); [reflexivity|].
  rewrite perm_swap. now apply perm_skip.
Qed.

Lemma sort_perm l : Permutation l (Plain.sort goes_before l).
Proof.
  induction l as [|x l IH]; simpl; [constructor|].
  rewrite <- insert_perm. now apply perm_skip.
Qed.

Lemma insert_sorted x l :
  StronglySorted by_distance l ->
  StronglySorted by_distance (Plain.insert goes_before x l).
Proof.
  induction 1 as [|y l Hs IH Hall]; simpl.
  - repeat constructor.
  - destruct (goes_before _ _) eqn:Hb.
    + apply before_le in Hb.
      constructor; [now constructor|].
      constructor; [exact Hb|].
      eapply Forall_impl; [|exact Hall].
      intros z Hz. unfold by_distance in *. lra.
    + apply after_le in Hb.
      constructor; [exact IH|].
      eapply Permutation_Forall; [apply insert_perm|].
      constructor; [exact Hb | exact Hall].
Qed.

Lemma sort_sorted l : StronglySorted by_distance (Plain.sort goes_before l).
Proof.
  induction l as [|x l IH]; simpl; [constructor|].
  now apply insert_sorted.
Qed.

End InsertionSort.

Lemma Rleb_before x y : Plain.Rleb x y = true -> (x <= y)%R.
Proof. unfold Plain.Rleb. destruct (Rle_dec x y); [easy | discriminate]. Qed.

Lemma Rleb_after x y : Plain.Rleb x y = false -> (y <= x)%R.
Proof. unfold Plain.Rleb. destruct (Rle_dec x y); [discriminate | lra]. Qed.

Lemma varchar_fits n s :
  (String.length s <= n)%nat -> Plain.varchar n (Sql.Text s) = Some s.
Proof. intros H. simpl. apply Nat.leb_le in H. now rewrite H. Qed.

(** The plain server, computing in binary64 over the recorded values
    of the C library. *)
Module Engines.

(** Equal distances stay in the order [ORDER BY] received them. *)
Definition storage_order : Engine := {|
  collate_eqb := String.eqb;
  collate_refl := String.eqb_refl;
  to_varchar := Plain.varchar;
  to_varchar_fits := varchar_fits;
  to_int := Plain.int;
  to_text := Plain.text;
  to_decimal := Plain.decimal;
  text_to_double := Plain.decimal_of_text;
  double_arith := binary64_arith recorded_libm;
  double_lt := PrimFloat.ltb;
  double_value := b64_value;
  order_by_distance := Plain.sort Plain.Rleb;
  order_by_perm := sort_perm Plain.Rleb;
  order_by_sorted := sort_sorted Plain.Rleb Rleb_before Rleb_after
|}.

End Engines.

(** ** Validation *)

Section Validation.

Context {E : Engine}.

Lemma register_rejected b w :
  register_rejects b = true -> register b w = (Status400, w).
Proof. intros H. unfold register. now rewrite H. Qed.

Lemma register_sends b w :
  register_rejects b = false ->
  sent (snd (register b w)) = sent w ++ [InsertDonor (insert_params b)]
  /\ fst (register b w) <> Status400.
Proof.
  intros H. unfold register. rewrite H.
  destruct (insertQuery _ _) as [[[]|id] t']; simpl; split;
    (reflexivity || discriminate).
Qed.

Lemma register_rejects_false b :
  register_rejects b = false <->
  Js.truthy (Body.name b) = true /\ Js.truthy (Body.age b) = true
  /\ Js.truthy (Body.bloodGroup b) = true /\ Js.truthy (Body.phone b) = true
  /\ Js.truthy (Body.latitude b) = true /\ Js.truthy (Body.longitude b) = true.
Proof.
  unfold register_rejects, Js.not.
  repeat rewrite orb_false_iff. repeat rewrite negb_false_iff. tauto.
Qed.

Lemma search_rejects_false q :
  search_rejects q = false <->
  Js.truthy (Query.latitude q) = true /\ Js.truthy (Query.longitude q) = true
  /\ Js.truthy (Query.bloodGroup q) = true.
Proof.
  unfold search_rejects, Js.not.
  repeat rewrite orb_false_iff. repeat rewrite negb_false_iff. tauto.
Qed.

Lemma truthy_not_true v : Js.truthy v = false -> Js.not v = true.
Proof. unfold Js.not. now intros ->. Qed.

Lemma zero_is_falsy q : q == 0 -> Js.truthy (Js.Number q) = false.
Proof.
  intros H. simpl. apply negb_false_iff. now apply Qeq_bool_iff.
Qed.

End Validation.

(** ** Lists *)

Lemma filter_none {T : Type} (f : T -> bool) (l : list T) :
  (forall x, In x l -> f x = false) -> filter f l = [].
Proof.
  induction l as [|x l IH]; simpl; intros H; [reflexivity|].
  rewrite (H x (or_introl eq_refl)). apply IH. intros y Hy. apply H. now right.
Qed.

(** ** The registry *)

Section Registry.

Context {E : Engine}.

(** What [insert_columns] puts into a row. *)
Lemma insert_columns_row params row :
  insert_columns params = Some row ->
  exists name age bloodGroup phone email address latitude longitude,
    not_null (to_varchar 3) (Sql.placeholder params 2) = Some bloodGroup
    /\ not_null (to_varchar 20) (Sql.placeholder params 3) = Some phone
    /\ row = (fun id => Donor.make id name age bloodGroup phone email
                                   address latitude longitude).
Proof.
  unfold insert_columns.
  destruct (not_null (to_varchar 255) _) as [name|]; [|discriminate].
  destruct (not_null to_int _) as [age|]; [|discriminate].
  destruct (not_null (to_varchar 3) _) as [bg|]; [|discriminate].
  destruct (not_null (to_varchar 20) _) as [phone|]; [|discriminate].
  destruct (not_null (to_varchar 255) _) as [email|]; [|discriminate].
  destruct (not_null to_text _) as [address|]; [|discriminate].
  destruct (not_null (to_decimal 10 8) _) as [lat|]; [|discriminate].
  destruct (not_null (to_decimal 11 8) _) as [lon|]; [|discriminate].
  intros [= <-]. now exists name, age, bg, phone, email, address, lat, lon.
Qed.

(** The three outcomes of the INSERT, read back from the response. *)
Lemma register_created b w id w1 :
  register b w = (Status201 id, w1) ->
  register_rejects b = false
  /\ id = auto_increment (donors w)
  /\ exists row,
      insert_columns (insert_params b) = Some row
      /\ phone_taken (Donor.phone (row id)) (donors w) = false
      /\ w1 = {| donors := {| rows := rows (donors w) ++ [row id];
                              auto_increment := next_id id |};
                 sent := sent w ++ [InsertDonor (insert_params b)] |}.
Proof.
  unfold register, insertQuery.
  destruct (register_rejects b); [discriminate|].
  destruct (insert_columns _) as [row|]; [|discriminate].
  destruct (id_taken _ _); [discriminate|].
  destruct (phone_taken _ _) eqn:Ht; [discriminate|].
  intros [= <- <-]. repeat split. now exists row.
Qed.

Lemma id_not_taken id t :
  id_taken id t = false -> ~ In id (map Donor.id (rows t)).
Proof.
  unfold id_taken. intros H Hin.
  apply in_map_iff in Hin as [d [<- Hd]].
  assert (existsb (fun d0 => Z.eqb (Donor.id d0) (Donor.id d)) (rows t)
          = true) as Hex.
  { apply existsb_exists. exists d. split; [exact Hd | apply Z.eqb_refl]. }
  congruence.
Qed.

(** The id of a new row is the id of no row before it. *)
Lemma register_created_fresh b w id w1 :
  register b w = (Status201 id, w1) ->
  ~ In id (map Donor.id (rows (donors w))).
Proof.
  unfold register, insertQuery.
  destruct (register_rejects b); [discriminate|].
  destruct (insert_columns _) as [row|]; [|discriminate].
  destruct (id_taken _ _) eqn:Hid; [discriminate|].
  destruct (phone_taken _ _); [discriminate|].
  intros [= <- _]. now apply id_not_taken.
Qed.

Lemma register_keeps_rows b w :
  (forall id, fst (register b w) <> Status201 id) ->
  rows (donors (snd (register b w))) = rows (donors w).
Proof.
  unfold register, insertQuery.
  destruct (register_rejects b); [reflexivity|].
  destruct (insert_columns _) as [row|]; [|reflexivity].
  destruct (id_taken _ _ || phone_taken _ _); [reflexivity|].
  intros H. now destruct (H (auto_increment (donors w))).
Qed.

Lemma phone_taken_app ph t d n :
  phone_taken ph {| rows := rows t ++ [d]; auto_increment := n |}
  = phone_taken ph t || collate_eqb (Donor.phone d) ph.
Proof.
  unfold phone_taken. simpl. rewrite existsb_app. simpl.
  now rewrite orb_false_r.
Qed.

Lemma phone_not_taken ph t :
  phone_taken ph t = false -> ~ In ph (map Donor.phone (rows t)).
Proof.
  unfold phone_taken. intros H Hin.
  apply in_map_iff in Hin as [d [<- Hd]].
  assert (existsb (fun d0 => collate_eqb (Donor.phone d0) (Donor.phone d))
                  (rows t) = true) as Hex.
  { apply existsb_exists. exists d. split; [exact Hd | apply collate_refl]. }
  congruence.
Qed.

(** [register] keeps the table invariant. *)
Lemma register_table_ok b w :
  table_ok (donors w) -> table_ok (donors (snd (register b w))).
Proof.
  intros [Hid Hph]. unfold register, insertQuery.
  destruct (register_rejects b); [now split|].
  destruct (insert_columns _) as [row|] eqn:Hrow; [|now split].
  destruct (insert_columns_row _ _ Hrow)
    as (nm & ag & bg & ph & em & ad & la & lo & _ & _ & ->).
  cbn [Donor.phone].
  destruct (id_taken _ _) eqn:Hi; [now split|].
  destruct (phone_taken ph (donors w)) eqn:Ht; [now split|].
  simpl. split; simpl; rewrite map_app; simpl.
  - apply Permutation_NoDup
      with (l := auto_increment (donors w) :: map Donor.id (rows (donors w))).
    + apply Permutation_cons_append.
    + constructor; [now apply id_not_taken | exact Hid].
  - apply Permutation_NoDup with (l := ph :: map Donor.phone (rows (donors w))).
    + apply Permutation_cons_append.
    + constructor; [now apply phone_not_taken | exact Hph].
Qed.

Lemma reachable_table_ok w : reachable w -> table_ok (donors w).
Proof.
  induction 1 as [|r w Hw IH].
  - split; constructor.
  - destruct r as [b|q]; simpl.
    + now apply register_table_ok.
    + unfold search. now destruct (search_rejects q).
Qed.

End Registry.

(** ** Great-circle arithmetic on the reals *)

Section GreatCircle.

Local Open Scope R_scope.

Lemma PI_bounds : 3.14159 < PI < 3.1416.
Proof.
  destruct (PI_2_3_7_ineq 2) as [Hlo Hhi].
  unfold sum_f_R0, tg_alt, PI_2_3_7_tg, Ratan_seq in Hlo, Hhi.
  simpl in Hlo, Hhi.
  split; lra.
Qed.

Lemma cos_taylor x :
  -2 <= x <= 2 -> 1 - x^2/2 <= cos x <= 1 - x^2/2 + x^4/24.
Proof.
  intros [H1 H2].
  destruct (pre_cos_bound x 0 H1 H2) as [Hlo Hhi].
  unfold cos_approx, cos_term, sum_f_R0 in Hlo, Hhi.
  simpl in Hlo, Hhi.
  split; lra.
Qed.

Lemma cos_taylor6 x :
  -2 <= x <= 2 -> 1 - x^2/2 + x^4/24 - x^6/720 <= cos x.
Proof.
  intros [H1 H2].
  destruct (pre_cos_bound x 1 H1 H2) as [Hlo _].
  unfold cos_approx, cos_term, sum_f_R0 in Hlo.
  simpl in Hlo.
  lra.
Qed.

(** The cosine of an angle known up to a bracket. *)
Lemma cos_bracket x lo hi :
  0 <= lo -> lo <= x -> x <= hi -> hi <= 2 ->
  1 - hi^2/2 + hi^4/24 - hi^6/720 <= cos x <= 1 - lo^2/2 + lo^4/24.
Proof.
  intros H0 H1 H2 H3.
  assert (HPI := PI_bounds).
  split.
  - apply Rle_trans with (cos hi).
    + apply cos_taylor6. lra.
    + apply cos_decr_1; lra.
  - apply Rle_trans with (cos lo).
    + apply cos_decr_1; lra.
    + apply cos_taylor. lra.
Qed.

(** [1 - cos x] for a small angle known up to a bracket. *)
Lemma versine_bracket x lo hi :
  0 <= lo -> lo <= x -> x <= hi -> hi <= 1 ->
  lo^2/2 - hi^4/24 <= 1 - cos x <= hi^2/2.
Proof.
  intros H0 H1 H2 H3.
  destruct (cos_taylor x) as [Hl Hu]; [lra|].
  assert (x^2 <= hi^2) by (apply pow_incr; lra).
  assert (lo^2 <= x^2) by (apply pow_incr; lra).
  assert (x^4 <= hi^4) by (apply pow_incr; lra).
  split; lra.
Qed.

Lemma acos_between x lo hi :
  0 <= lo <= 1 -> 0 <= hi <= 1 -> -1 <= x <= 1 ->
  1 - cos lo < 1 - x -> 1 - x < 1 - cos hi ->
  lo < acos x < hi.
Proof.
  intros H0 H1 Hx Hlo Hhi.
  assert (HPI := PI_bounds).
  destruct (acos_bound x) as [Ha0 Ha1].
  pose proof (cos_acos x Hx) as Hc.
  split.
  - destruct (Rlt_dec lo (acos x)) as [|Hn]; [assumption|].
    exfalso. assert (acos x <= lo) by lra.
    assert (cos lo <= cos (acos x)) by (apply cos_decr_1; lra).
    lra.
  - destruct (Rlt_dec (acos x) hi) as [|Hn]; [assumption|].
    exfalso. assert (hi <= acos x) by lra.
    assert (cos (acos x) <= cos hi) by (apply cos_decr_1; lra).
    lra.
Qed.

Lemma cos_difference_sym x y : cos (x - y) = cos (y - x).
Proof. replace (y - x) with (- (x - y)) by ring. now rewrite cos_neg. Qed.

(** In exact arithmetic the argument of [acos] is a cosine of an
    angle between two directions: it never leaves [-1, 1]. *)
Lemma acos_argument_range a b c :
  -1 <= cos a * cos b * cos c + sin a * sin b <= 1.
Proof.
  pose proof (COS_bound (a - b)) as [H1 H2].
  pose proof (COS_bound (a + b)) as [H3 H4].
  pose proof (COS_bound c) as [H5 H6].
  rewrite cos_minus in H1, H2. rewrite cos_plus in H3, H4.
  split; nra.
Qed.

Lemma real_acos_in_range x : -1 <= x <= 1 -> real_acos x = Some (acos x).
Proof.
  intros [H1 H2]. unfold real_acos.
  destruct (Rle_dec (-1) x); [|contradiction].
  destruct (Rle_dec x 1); [reflexivity | contradiction].
Qed.

(** The expression of [searchQuery] on the reals, when the first and
    the third placeholder carry the same latitude. *)
Lemma distance_expr_real lat1 lon1 lat2 lon2 :
  distance_expr real_arith (Some lat1) (Some lon1) (Some lat1)
                (Some lat2) (Some lon2)
  = Some (spherical_law_of_cosines lat1 lon1 lat2 lon2).
Proof.
  unfold distance_expr, spherical_law_of_cosines, deg_to_rad. simpl.
  replace (lat1 * (PI / 180)) with (lat1 * PI / 180) by field.
  replace (lat2 * (PI / 180)) with (lat2 * PI / 180) by field.
  replace (lon1 * (PI / 180)) with (lon1 * PI / 180) by field.
  replace (lon2 * (PI / 180)) with (lon2 * PI / 180) by field.
  rewrite real_acos_in_range by apply acos_argument_range.
  simpl. f_equal. unfold Q2R. simpl. field.
Qed.


(** Delhi (28.6139, 77.2090) to (28.7041, 77.1025). *)
Lemma delhi_example :
  14.4 < spherical_law_of_cosines 28.6139 77.2090 28.7041 77.1025 < 14.5.
Proof.
  unfold spherical_law_of_cosines.
  assert (HPI := PI_bounds).
  set (p1 := deg_to_rad 28.6139). set (p2 := deg_to_rad 28.7041).
  set (l1 := deg_to_rad 77.2090). set (l2 := deg_to_rad 77.1025).
  set (x := cos p1 * cos p2 * cos (l2 - l1) + sin p1 * sin p2).
  assert (Hx : -1 <= x <= 1) by apply acos_argument_range.
  set (u := p2 - p1). set (v := l1 - l2).
  assert (Hxe : 1 - x = (1 - cos u) + cos p1 * cos p2 * (1 - cos v)).
  { unfold x, u, v. rewrite (cos_minus p2 p1).
    replace (l2 - l1) with (- (l1 - l2)) by ring. rewrite cos_neg. ring. }
  assert (Hp1 : 0.4993 <= p1 <= 0.4995) by (unfold p1, deg_to_rad; lra).
  assert (Hp2 : 0.5009 <= p2 <= 0.5011) by (unfold p2, deg_to_rad; lra).
  assert (Hu : 0.0902 * (3.14159 / 180) <= u <= 0.0902 * (3.1416 / 180))
    by (unfold u, p1, p2, deg_to_rad; lra).
  assert (Hv : 0.1065 * (3.14159 / 180) <= v <= 0.1065 * (3.1416 / 180))
    by (unfold v, l1, l2, deg_to_rad; lra).
  destruct (cos_bracket p1 0.4993 0.4995) as [Hc1l Hc1u]; try lra.
  destruct (cos_bracket p2 0.5009 0.5011) as [Hc2l Hc2u]; try lra.
  assert (Hc1 : 0.8778 <= cos p1 <= 0.8780) by lra.
  assert (Hc2 : 0.8770 <= cos p2 <= 0.8772) by lra.
  assert (HC : 0.7698 <= cos p1 * cos p2 <= 0.7702) by nra.
  destruct (versine_bracket u (0.0902 * (3.14159 / 180))
                            (0.0902 * (3.1416 / 180)))
    as [Hul Huu]; try lra.
  destruct (versine_bracket v (0.1065 * (3.14159 / 180))
                            (0.1065 * (3.1416 / 180)))
    as [Hvl Hvu]; try lra.
  destruct (cos_taylor (14.4 / 6371)) as [Htl _]; [lra|].
  destruct (cos_taylor (14.5 / 6371)) as [_ Hth]; [lra|].
  assert (Hacos : 14.4 / 6371 < acos x < 14.5 / 6371).
  { apply acos_between; try lra; rewrite Hxe;
      set (C := cos p1 * cos p2) in *;
      set (cu := 1 - cos u) in *; set (cv := 1 - cos v) in *;
      clearbody C cu cv; nra. }
  lra.
Qed.

End GreatCircle.

(** ** The search pipeline *)

Section Matching.

Context {E : Engine}.

Local Open Scope R_scope.

(** The bound of [HAVING] is the fifth value, the number 15. *)
Lemma radius_is_15 (A : Arith) q :
  sql_double A (Sql.placeholder (search_params q) 4)
  = Some (of_decimal A 15).
Proof. reflexivity. Qed.

Lemma in_select_having q d m :
  In m (select_having (search_params q) d) <->
  exists x, searchQuery_distance double_arith (search_params q) d = Some x
            /\ double_lt x (of_decimal double_arith 15) = true
            /\ m = as_match d (double_value x).
Proof.
  unfold select_having. rewrite radius_is_15.
  destruct (searchQuery_distance double_arith (search_params q) d) as [x|];
    simpl.
  - destruct (double_lt x (of_decimal double_arith 15)) eqn:Hlt; simpl.
    + split.
      * intros [<-|[]]. now exists x.
      * intros (y & [= <-] & _ & ->). now left.
    + split; [intros []|]. intros (y & [= <-] & Hy & _). congruence.
  - split; [intros []|]. now intros (y & [=] & _).
Qed.


Lemma search_found q w found w' :
  search q w = (Status200 found, w') ->
  search_rejects q = false
  /\ found = searchQuery (search_params q) (donors w)
  /\ w' = {| donors := donors w;
             sent := sent w ++ [SelectDonors (search_params q)] |}.
Proof.
  unfold search. destruct (search_rejects q); [discriminate|].
  now intros [= <- <-].
Qed.

Lemma order_by_nil : order_by_distance [] = [].
Proof. apply Permutation_nil, order_by_perm. Qed.

End Matching.

(** * The claims *)

(** ** Validation of registrations *)

(** C10.  A registration in which latitude, longitude or age is the
    number 0 is rejected by the presence check exactly as if the field
    were missing: the answer is 400 and nothing is sent to the pool. *)
Theorem zero_field_rejected_as_missing :
  forall (E : Engine) (b : Body.t) (w : World) (z : Q),
    z == 0 ->
    Body.latitude b = Js.Number z \/ Body.longitude b = Js.Number z
    \/ Body.age b = Js.Number z ->
    register b w = (Status400, w).
Proof.
  intros E b w z Hz H. apply register_rejected.
  pose proof (truthy_not_true _ (zero_is_falsy z Hz)) as Hnot.
  unfold register_rejects.
  destruct H as [H|[H|H]]; rewrite H, Hnot;
    repeat rewrite orb_true_r; reflexivity.
Qed.

Lemma zero_field_rejected_as_missing_witness :
  register (E := Engines.storage_order) on_the_equator initial
  = (Status400, initial).
Proof.
  apply (zero_field_rejected_as_missing Engines.storage_order
           on_the_equator initial 0).
  - reflexivity.
  - left. reflexivity.
Defined.

(** C4, as the handler has it.  If one of name, age, bloodGroup, phone,
    latitude, longitude is missing or falsy (null, false, 0, the empty
    string), the answer is 400 and nothing is sent to the pool.  If all
    eight fields are present and truthy, the INSERT is sent whatever the
    values are: neither the form or sign of age nor the range of the
    coordinates is looked at. *)
Theorem register_checks_presence_only :
  forall (E : Engine) (b : Body.t) (w : World),
    (Exists (fun v => Js.truthy v = false)
            [Body.name b; Body.age b; Body.bloodGroup b; Body.phone b;
             Body.latitude b; Body.longitude b] ->
     register b w = (Status400, w))
    /\ (Forall (fun v => Js.truthy v = true)
               [Body.name b; Body.age b; Body.bloodGroup b; Body.phone b;
                Body.email b; Body.address b; Body.latitude b;
                Body.longitude b] ->
        fst (register b w) <> Status400
        /\ sent (snd (register b w))
           = sent w ++ [InsertDonor (insert_params b)]).
Proof.
  intros E b w. split.
  - intros H. apply register_rejected.
    destruct (register_rejects b) eqn:Hr; [reflexivity|].
    apply register_rejects_false in Hr as (H1 & H2 & H3 & H4 & H5 & H6).
    repeat (apply Exists_cons in H as [H|H]; [congruence|]).
    inversion H.
  - intros H.
    assert (register_rejects b = false) as Hr.
    { apply register_rejects_false.
      repeat match goal with
             | H : Forall _ (_ :: _) |- _ => inversion H; clear H; subst
             end.
      tauto. }
    destruct (register_sends b w Hr). now split.
Qed.

(** C4 as stated fails: latitude 95 is outside [-90, 90], yet the
    registration is answered 201 and its row is written. *)
Lemma latitude_95_is_registered :
  Body.latitude latitude_95 = Js.Number 95
  /\ (90 < 95)%Q
  /\ register (E := Engines.storage_order) latitude_95 initial
     = (Status201 1,
        {| donors :=
             {| rows := [Donor.make 1 "Nora" 52 "AB-" "5550103"
                                    "nora@example.org" "nowhere" 95 10];
                auto_increment := 2 |};
           sent := [InsertDonor (insert_params latitude_95)] |}).
Proof. repeat split. Qed.

(** ** Validation of searches *)

(** C8, as the handler has it.  A search is answered 400 when latitude,
    longitude or bloodGroup is missing or empty, and nothing is sent to
    the pool.  When all three are present the query is run and the
    answer is 200 with what it found, whatever the coordinates are. *)
Theorem search_checks_presence_only :
  forall (E : Engine) (q : Query.t) (w : World),
    (Exists (fun v => Js.truthy v = false)
            [Query.latitude q; Query.longitude q; Query.bloodGroup q] ->
     search q w = (Status400, w))
    /\ (Forall (fun v => Js.truthy v = true)
               [Query.latitude q; Query.longitude q; Query.bloodGroup q] ->
        search q w
        = (Status200 (searchQuery (search_params q) (donors w)),
           {| donors := donors w;
              sent := sent w ++ [SelectDonors (search_params q)] |})).
Proof.
  intros E q w. unfold search. split.
  - intros H.
    destruct (search_rejects q) eqn:Hr; [reflexivity|].
    apply search_rejects_false in Hr as (H1 & H2 & H3).
    repeat (apply Exists_cons in H as [H|H]; [congruence|]).
    inversion H.
  - intros H.
    assert (search_rejects q = false) as ->; [|reflexivity].
    apply search_rejects_false.
    repeat match goal with
           | H : Forall _ (_ :: _) |- _ => inversion H; clear H; subst
           end.
    tauto.
Qed.

(** C8 as stated fails: a search from latitude 95, longitude 200 is
    answered 200. *)
Lemma search_from_latitude_95_is_answered :
  (90 < text_to_double (Engine := Engines.storage_order) "95")%Q
  /\ (180 < text_to_double (Engine := Engines.storage_order) "200")%Q
  /\ search (E := Engines.storage_order) from_latitude_95 initial
     = (Status200 [],
        {| donors := empty_table;
           sent := [SelectDonors (search_params from_latitude_95)] |}).
Proof. repeat split. Qed.

(** ** Uniqueness of the phone number *)

(** C3.  After a registration with some phone number has succeeded, a
    later registration carrying the same phone number always fails and
    writes no row: the rows of the table are the ones before it, and the
    table holds each phone number at most once.  When the later
    registration is otherwise in order (it passes the presence check and
    the columns take its values), the failure is 409, the
    duplicate-donor error.  This holds in every state the server can
    reach. *)
Theorem duplicate_phone_rejected :
  forall (E : Engine) (w : World) (b1 b2 : Body.t) (id1 : Z) (w1 : World),
    reachable w ->
    register b1 w = (Status201 id1, w1) ->
    Body.phone b2 = Body.phone b1 ->
    (register_rejects b2 = false ->
     insert_columns (insert_params b2) <> None ->
     fst (register b2 w1) = Status409)
    /\ (forall id2, fst (register b2 w1) <> Status201 id2)
    /\ rows (donors (snd (register b2 w1))) = rows (donors w1)
    /\ NoDup (map Donor.phone (rows (donors (snd (register b2 w1))))).
Proof.
  intros E w b1 b2 id1 w1 Hw H1 Hphone.
  assert (reachable w1) as Hw1.
  { replace w1 with (snd (handle (PostDonor b1) w)).
    - now constructor.
    - simpl. now rewrite H1. }
  assert (forall row2,
             insert_columns (insert_params b2) = Some row2 ->
             phone_taken (Donor.phone (row2 (auto_increment (donors w1))))
                         (donors w1) = true) as Htaken.
  { intros row2 Hrow2.
    apply register_created in H1 as (_ & _ & row1 & Hrow1 & _ & ->).
    destruct (insert_columns_row _ _ Hrow1)
      as (n1 & a1 & g1 & p1 & e1 & d1 & la1 & lo1 & _ & Hp1 & ->).
    destruct (insert_columns_row _ _ Hrow2)
      as (n2 & a2 & g2 & p2 & e2 & d2 & la2 & lo2 & _ & Hp2 & ->).
    assert (p2 = p1) as ->.
    { unfold insert_params, Sql.placeholder in Hp1, Hp2. simpl in Hp1, Hp2.
      rewrite Hphone in Hp2. congruence. }
    cbn [donors Donor.phone].
    rewrite phone_taken_app. cbn [Donor.phone].
    now rewrite collate_refl, orb_true_r. }
  assert (forall id2, fst (register b2 w1) <> Status201 id2) as Hfails.
  { intros id2. unfold register, insertQuery.
    destruct (register_rejects b2); [discriminate|].
    destruct (insert_columns (insert_params b2)) as [row2|] eqn:Hrow2;
      [|discriminate].
    rewrite (Htaken row2 eq_refl), orb_true_r. discriminate. }
  split; [|split; [exact Hfails|split]].
  - intros Hok2 Hcols2. unfold register, insertQuery. rewrite Hok2.
    destruct (insert_columns (insert_params b2)) as [row2|] eqn:Hrow2;
      [|contradiction].
    now rewrite (Htaken row2 eq_refl), orb_true_r.
  - now apply register_keeps_rows.
  - rewrite (register_keeps_rows b2 w1 Hfails).
    apply (reachable_table_ok w1 Hw1).
Qed.

Lemma duplicate_phone_rejected_witness :
  fst (register (E := Engines.storage_order) ravi
                (snd (register (E := Engines.storage_order) asha initial)))
  = Status409
  /\ rows (donors (snd (register (E := Engines.storage_order) ravi
                         (snd (register (E := Engines.storage_order)
                                        asha initial)))))
     = [asha_row].
Proof.
  destruct (duplicate_phone_rejected Engines.storage_order initial asha ravi 1
              (snd (register (E := Engines.storage_order) asha initial)))
    as (H409 & _ & Hrows & _).
  - apply reach_initial.
  - reflexivity.
  - reflexivity.
  - split.
    + apply H409; [reflexivity | discriminate].
    + rewrite Hrows. reflexivity.
Defined.

(** ** Registering, then looking up the blood group *)



(** ** Searching *)

(** C9.  A search whose three fields are present, for a blood group no
    row of the table matches (a recognised group nobody has registered
    or any other value), is answered 200 with the empty list. *)
Theorem no_matching_donor_gives_empty_list :
  forall (E : Engine) (q : Query.t) (w : World),
    Js.truthy (Query.latitude q) = true ->
    Js.truthy (Query.longitude q) = true ->
    Js.truthy (Query.bloodGroup q) = true ->
    (forall d, In d (rows (donors w)) ->
               where_bloodGroup (Sql.escape (Query.bloodGroup q)) d = false) ->
    search q w
    = (Status200 [],
       {| donors := donors w;
          sent := sent w ++ [SelectDonors (search_params q)] |}).
Proof.
  intros E q w Hlat Hlon Hbg Hnone. unfold search.
  assert (search_rejects q = false) as ->
      by (apply search_rejects_false; tauto).
  f_equal. f_equal. unfold searchQuery, findByBloodGroup.
  change (Sql.placeholder (search_params q) 3)
    with (Sql.escape (Query.bloodGroup q)).
  rewrite (filter_none _ _ Hnone). simpl. apply order_by_nil.
Qed.

Lemma no_matching_donor_gives_empty_list_witness :
  search (E := Engines.storage_order) (from_delhi "O-")
         (snd (register (E := Engines.storage_order) asha initial))
  = (Status200 [],
     {| donors := {| rows := [asha_row]; auto_increment := 2 |};
        sent := [InsertDonor (insert_params asha);
                 SelectDonors (search_params (from_delhi "O-"))] |}).
Proof.
  apply (no_matching_donor_gives_empty_list Engines.storage_order
           (from_delhi "O-")
           (snd (register (E := Engines.storage_order) asha initial))).
  - reflexivity.
  - reflexivity.
  - reflexivity.
  - intros d [<-|[]]. reflexivity.
Defined.




(** ** The distance *)

(** The distance column of the row in Rohini for a search from Delhi,
    in binary64. *)
Lemma delhi_distance_binary64 (E : Engine) (m : Libm) :
  text_to_double "28.6139" = 28.6139%Q ->
  text_to_double "77.2090" = 77.2090%Q ->
  c_cos m (b64_radians (b64_of_decimal 28.6139))
  = 0x1.c177c278189b7p-1%float ->
  c_cos m (b64_radians (b64_of_decimal 28.7041))
  = 0x1.c114cc296d18bp-1%float ->
  c_cos m (PrimFloat.sub (b64_radians (b64_of_decimal 77.1025))
                         (b64_radians (b64_of_decimal 77.2090)))
  = 0x1.ffffc608b0d2p-1%float ->
  c_sin m (b64_radians (b64_of_decimal 28.6139))
  = 0x1.ea6607fda8f7ap-2%float ->
  c_sin m (b64_radians (b64_of_decimal 28.7041))
  = 0x1.ebd02989673f1p-2%float ->
  c_acos m 0x1.ffffa9c95ce79p-1%float = 0x1.291fb5113b72fp-9%float ->
  searchQuery_distance (binary64_arith m) (search_params (from_delhi "A+"))
                       rohini_row
  = Some 0x1.ce270172bda7dp+3%float.
Proof.
  intros Hlat Hlon Hc1 Hc2 Hc3 Hs1 Hs2 Hacos.
  unfold searchQuery_distance, search_params, Sql.placeholder.
  cbn [map nth from_delhi Query.latitude Query.longitude
       Query.bloodGroup Sql.escape sql_double rohini_row
       Donor.latitude Donor.longitude].
  rewrite Hlat, Hlon.
  unfold distance_expr, Expr.times, Expr.plus, Expr.minus, Expr.cos, Expr.sin,
    Expr.radians, Expr.acos, Expr.const, Expr.lift1, Expr.lift2.
  cbn [binary64_arith num of_decimal mul add sub COS SIN ACOS RADIANS].
  rewrite Hc1, Hc2, Hc3, Hs1, Hs2.
  replace (PrimFloat.add _ _) with 0x1.ffffa9c95ce79p-1%float
    by (vm_compute; reflexivity).
  unfold b64_acos.
  replace (PrimFloat.ltb _ (-1)%float || PrimFloat.ltb 1%float _)
    with false by (vm_compute; reflexivity).
  rewrite Hacos. vm_compute. reflexivity.
Qed.

(** The expression of [searchQuery] with the values [search_params]
    binds is the formula of the specification read in the same
    arithmetic. *)
Lemma searchQuery_distance_in (E : Engine) (A : Arith) q d lat1 lon1 :
  sql_double A (Sql.escape (Query.latitude q)) = Some lat1 ->
  sql_double A (Sql.escape (Query.longitude q)) = Some lon1 ->
  searchQuery_distance A (search_params q) d
  = spherical_law_in A lat1 lon1 (of_decimal A (Donor.latitude d))
                     (of_decimal A (Donor.longitude d)).
Proof.
  intros Hlat Hlon.
  unfold searchQuery_distance, search_params, Sql.placeholder.
  cbn [map nth]. rewrite Hlat, Hlon.
  unfold distance_expr, spherical_law_in, Expr.times, Expr.plus, Expr.minus,
    Expr.cos, Expr.sin, Expr.radians, Expr.acos, Expr.const, Expr.lift1,
    Expr.lift2.
  now destruct (ACOS A _).
Qed.

(** C1, with the example as the code computes it.  For every origin,
    every row and every arithmetic, the distance column is
    [6371 * acos(cos(lat1) cos(lat2) cos(lon2 - lon1) + sin(lat1) sin(lat2))]
    on the angles turned into radians, all read in that arithmetic,
    [lat1], [lon1] being the numeric readings of the request's latitude
    and longitude and [lat2], [lon2] the row's; read in exact
    arithmetic, this is the great-circle distance of the
    specification.  From (28.6139, 77.2090) to (28.7041, 77.1025) the
    server, computing in binary64 with the doubles the C library
    returns at the six arguments, finds 14.442..., a value between 14.4
    and 14.5, as the exact formula does. *)
Theorem distance_is_spherical_law_of_cosines :
  forall (E : Engine) (A : Arith) (q : Query.t) (d : Donor.t)
         (lat1 lon1 : num A) (m : Libm),
    sql_double A (Sql.escape (Query.latitude q)) = Some lat1 ->
    sql_double A (Sql.escape (Query.longitude q)) = Some lon1 ->
    text_to_double "28.6139" = 28.6139%Q ->
    text_to_double "77.2090" = 77.2090%Q ->
    c_cos m (b64_radians (b64_of_decimal 28.6139))
    = 0x1.c177c278189b7p-1%float ->
    c_cos m (b64_radians (b64_of_decimal 28.7041))
    = 0x1.c114cc296d18bp-1%float ->
    c_cos m (PrimFloat.sub (b64_radians (b64_of_decimal 77.1025))
                           (b64_radians (b64_of_decimal 77.2090)))
    = 0x1.ffffc608b0d2p-1%float ->
    c_sin m (b64_radians (b64_of_decimal 28.6139))
    = 0x1.ea6607fda8f7ap-2%float ->
    c_sin m (b64_radians (b64_of_decimal 28.7041))
    = 0x1.ebd02989673f1p-2%float ->
    c_acos m 0x1.ffffa9c95ce79p-1%float = 0x1.291fb5113b72fp-9%float ->
    searchQuery_distance A (search_params q) d
    = spherical_law_in A lat1 lon1 (of_decimal A (Donor.latitude d))
                       (of_decimal A (Donor.longitude d))
    /\ (forall a b c e : R,
           spherical_law_in real_arith a b c e
           = Some (spherical_law_of_cosines a b c e))
    /\ (exists x,
           searchQuery_distance (binary64_arith m)
                                (search_params (from_delhi "A+")) rohini_row
           = Some x
           /\ PrimFloat.ltb (b64_of_decimal 14.4) x = true
           /\ PrimFloat.ltb x (b64_of_decimal 14.5) = true)
    /\ (14.4 < spherical_law_of_cosines 28.6139 77.2090 28.7041 77.1025
        < 14.5)%R.
Proof.
  intros E A q d lat1 lon1 m Hlat Hlon Htlat Htlon Hc1 Hc2 Hc3 Hs1 Hs2 Hacos.
  split; [now apply searchQuery_distance_in|]. split; [|split].
  - intros a b c e.
    pose proof (distance_expr_real a b c e) as H.
    unfold distance_expr, Expr.times, Expr.plus, Expr.minus, Expr.cos,
      Expr.sin, Expr.radians, Expr.acos, Expr.const, Expr.lift1,
      Expr.lift2 in H.
    unfold spherical_law_in.
    destruct (ACOS real_arith _) as [angle|]; [exact H | discriminate H].
  - exists 0x1.ce270172bda7dp+3%float. split; [|split].
    + now apply delhi_distance_binary64.
    + vm_compute. reflexivity.
    + vm_compute. reflexivity.
  - apply delhi_example.
Qed.

Lemma distance_is_spherical_law_of_cosines_witness :
  exists x,
    searchQuery_distance (E := Engines.storage_order)
                         (binary64_arith delhi_libm)
                         (search_params (from_delhi "A+")) rohini_row
    = Some x
    /\ PrimFloat.ltb (b64_of_decimal 14.4) x = true
    /\ PrimFloat.ltb x (b64_of_decimal 14.5) = true.
Proof.
  apply (distance_is_spherical_law_of_cosines
           Engines.storage_order (binary64_arith delhi_libm)
           (from_delhi "A+") rohini_row
           (b64_of_decimal 28.6139) (b64_of_decimal 77.2090) delhi_libm).
  - reflexivity.
  - reflexivity.
  - reflexivity.
  - reflexivity.
  - reflexivity.
  - reflexivity.
  - reflexivity.
  - reflexivity.
  - reflexivity.
  - reflexivity.
Defined.

(** C1 as stated fails on its example: the distance the server
    computes from (28.6139, 77.2090) to (28.7041, 77.1025), in binary64
    with the doubles of the C library, is not between 13.0 and 13.5 km,
    and neither is the value of the exact formula. *)
Lemma delhi_example_is_not_13_km :
  (exists x,
      searchQuery_distance (E := Engines.storage_order)
                           (binary64_arith delhi_libm)
                           (search_params (from_delhi "A+")) rohini_row
      = Some x
      /\ PrimFloat.leb x (b64_of_decimal 13.5) = false)
  /\ ~ (13.0 <= spherical_law_of_cosines 28.6139 77.2090 28.7041 77.1025
        <= 13.5)%R.
Proof.
  split.
  - exists 0x1.ce270172bda7dp+3%float. split.
    + apply delhi_distance_binary64; reflexivity.
    + vm_compute. reflexivity.
  - pose proof delhi_example. lra.
Qed.

(** C6.  The distance from A to B equals the distance from B to A: a
    search from A's coordinates gives a row at B's the distance that a
    search from B's coordinates gives a row at A's.  This holds in every
    arithmetic in which products commute and the cosine of a difference
    does not depend on its sign, exact or rounded. *)
Theorem distance_symmetric :
  forall (E : Engine) (A : Arith) (qa qb : Query.t) (da db : Donor.t),
    (forall x y, mul A x y = mul A y x) ->
    (forall x y, COS A (sub A x y) = COS A (sub A y x)) ->
    sql_double A (Sql.escape (Query.latitude qa))
    = Some (of_decimal A (Donor.latitude da)) ->
    sql_double A (Sql.escape (Query.longitude qa))
    = Some (of_decimal A (Donor.longitude da)) ->
    sql_double A (Sql.escape (Query.latitude qb))
    = Some (of_decimal A (Donor.latitude db)) ->
    sql_double A (Sql.escape (Query.longitude qb))
    = Some (of_decimal A (Donor.longitude db)) ->
    searchQuery_distance A (search_params qa) db
    = searchQuery_distance A (search_params qb) da.
Proof.
  intros E A qa qb da db Hmul Hcos Hlat_a Hlon_a Hlat_b Hlon_b.
  unfold searchQuery_distance, search_params, Sql.placeholder.
  cbn [map nth]. rewrite Hlat_a, Hlon_a, Hlat_b, Hlon_b.
  unfold distance_expr, Expr.times, Expr.plus, Expr.minus, Expr.cos, Expr.sin,
    Expr.radians, Expr.acos, Expr.lift1, Expr.lift2.
  rewrite (Hmul (COS A (RADIANS A (of_decimal A (Donor.latitude da))))
                (COS A (RADIANS A (of_decimal A (Donor.latitude db))))).
  rewrite (Hmul (SIN A (RADIANS A (of_decimal A (Donor.latitude da))))
                (SIN A (RADIANS A (of_decimal A (Donor.latitude db))))).
  rewrite (Hcos (RADIANS A (of_decimal A (Donor.longitude db)))
                (RADIANS A (of_decimal A (Donor.longitude da)))).
  reflexivity.
Qed.

Lemma distance_symmetric_witness :
  searchQuery_distance (E := Engines.storage_order) real_arith
                       (search_params (from_delhi "A+")) rohini_row
  = searchQuery_distance (E := Engines.storage_order) real_arith
                         (search_params (from_rohini "A+")) delhi_row.
Proof.
  apply (distance_symmetric Engines.storage_order real_arith
           (from_delhi "A+") (from_rohini "A+") delhi_row rohini_row).
  - exact Rmult_comm.
  - exact cos_difference_sym.
  - reflexivity.
  - reflexivity.
  - reflexivity.
  - reflexivity.
Defined.

(** ** A donor at the origin, in binary64 *)

(** C5, where the code departs from it.  A donor stored at latitude
    20.5937, longitude 78.9629 is searched for from the same
    coordinates.  With the doubles the C library returns for the cosine
    and sine of the latitude, [cos * cos * 1 + sin * sin] rounds to
    1.0000000000000002; [acos] is applied to it as it is, with no
    clamp to [-1, 1], and the distance column is NULL, not 0. *)
Theorem coincident_donor_distance_is_null :
  forall (E : Engine) (m : Libm),
    text_to_double "20.5937" = 20.5937%Q ->
    text_to_double "78.9629" = 78.9629%Q ->
    c_cos m (b64_radians (b64_of_decimal 20.5937))
    = 0x1.df4843f87dee2p-1%float ->
    c_sin m (b64_radians (b64_of_decimal 20.5937))
    = 0x1.682e320069e02p-2%float ->
    c_cos m 0%float = 1%float ->
    searchQuery_distance (binary64_arith m)
                         (search_params (from_india_centre "B+"))
                         india_centre_row
    = None.
Proof.
  intros E m Hlat Hlon Hcos Hsin Hcos0.
  unfold searchQuery_distance, search_params, Sql.placeholder.
  cbn [map nth from_india_centre Query.latitude Query.longitude
       Query.bloodGroup Sql.escape sql_double india_centre_row
       Donor.latitude Donor.longitude].
  rewrite Hlat, Hlon.
  unfold distance_expr, Expr.times, Expr.plus, Expr.minus, Expr.cos, Expr.sin,
    Expr.radians, Expr.acos, Expr.const, Expr.lift1, Expr.lift2.
  cbn [binary64_arith num of_decimal mul add sub COS SIN ACOS RADIANS].
  rewrite Hcos, Hsin.
  replace (PrimFloat.sub (b64_radians (b64_of_decimal 78.9629))
                         (b64_radians (b64_of_decimal 78.9629)))
    with 0%float by (vm_compute; reflexivity).
  rewrite Hcos0.
  unfold b64_acos.
  replace (PrimFloat.ltb 1 _) with true by (vm_compute; reflexivity).
  rewrite Bool.orb_true_r. reflexivity.
Qed.

Lemma coincident_donor_distance_is_null_witness :
  searchQuery_distance (E := Engines.storage_order)
                       (binary64_arith recorded_libm)
                       (search_params (from_india_centre "B+"))
                       india_centre_row
  = None.
Proof.
  apply (coincident_donor_distance_is_null Engines.storage_order
           recorded_libm).
  - reflexivity.
  - reflexivity.
  - reflexivity.
  - reflexivity.
  - reflexivity.
Defined.

(** * The server over its lifetime *)

(** ** Starts, restarts and requests *)

(** [CREATE TABLE IF NOT EXISTS donors (...)]: a table that is there is
    kept as it is; otherwise the empty one is made. *)
Definition createTableQuery (database : option Table) : Table :=
  match database with
  | Some t => t
  | None => empty_table
  end.

(** [initializeDatabase]: the pool is created and [createTableQuery] is
    run on it.  When the database cannot be reached the process exits
    ([None]).  The log of a new pool is empty. *)
Definition initializeDatabase (connects : bool) (database : option Table)
    : option World :=
  if connects
  then Some {| donors := createTableQuery database; sent := [] |}
  else None.

(** The machine: the server process with its pool, or no process and
    the table the database holds, if any. *)
Inductive Host : Type :=
| Running (w : World)
| Down (database : option Table).

Inductive Event : Type :=
| Serve (r : Request)
| Start (connects : bool).   (* the process is started, or stopped and
                                started again *)

Definition table_of (h : Host) : option Table :=
  match h with
  | Running w => Some (donors w)
  | Down database => database
  end.

Definition rows_of (h : Host) : list Donor.t :=
  match table_of h with
  | Some t => rows t
  | None => []
  end.

Section Lifetime.

Context {E : Engine}.

Definition boot (connects : bool) (database : option Table) : Host :=
  match initializeDatabase connects database with
  | Some w => Running w
  | None => Down database
  end.

(** A request reaches a handler only while the process runs. *)
Definition step (e : Event) (h : Host) : Host :=
  match e with
  | Serve r =>
      match h with
      | Running w => Running (snd (handle r w))
      | Down database => Down database
      end
  | Start connects => boot connects (table_of h)
  end.

Definition run (events : list Event) (h : Host) : Host :=
  fold_left (fun h e => step e h) events h.

(** The counter never passes the largest INT, and until it has reached
    it the ids of the rows are below it. *)
Definition ids_ok (t : Table) : Prop :=
  (auto_increment t <= INT_MAX)%Z
  /\ ((auto_increment t < INT_MAX)%Z ->
      Forall (fun d => (Donor.id d < auto_increment t)%Z) (rows t)).

Definition host_ok (h : Host) : Prop :=
  match table_of h with
  | Some t => table_ok t /\ ids_ok t
  | None => True
  end.

End Lifetime.

(** A fresh machine: no process, no table. *)
Definition fresh_host : Host := Down None.

Section LifetimeFacts.

Context {E : Engine}.

Lemma register_rows b w :
  rows (donors (snd (register b w))) = rows (donors w)
  \/ exists row,
      insert_columns (insert_params b) = Some row
      /\ fst (register b w) = Status201 (auto_increment (donors w))
      /\ rows (donors (snd (register b w)))
         = rows (donors w) ++ [row (auto_increment (donors w))].
Proof.
  unfold register, insertQuery.
  destruct (register_rejects b); [now left|].
  destruct (insert_columns _) as [row|]; [|now left].
  destruct (id_taken _ _ || phone_taken _ _); [now left|].
  right. now exists row.
Qed.

Lemma search_keeps_table q w : donors (snd (search q w)) = donors w.
Proof. unfold search. now destruct (search_rejects q). Qed.

Lemma handle_rows r w :
  exists ext, rows (donors (snd (handle r w))) = rows (donors w) ++ ext.
Proof.
  destruct r as [b|q]; simpl.
  - destruct (register_rows b w) as [H|(row & _ & _ & H)]; rewrite H.
    + exists []. now rewrite app_nil_r.
    + now eexists.
  - rewrite search_keeps_table. exists []. now rewrite app_nil_r.
Qed.

Lemma boot_rows c database :
  rows_of (boot c database) = rows_of (Down database).
Proof.
  unfold boot, initializeDatabase. destruct c; [|reflexivity].
  now destruct database.
Qed.

Lemma step_rows e h : exists ext, rows_of (step e h) = rows_of h ++ ext.
Proof.
  destruct e as [r|c]; simpl.
  - destruct h as [w|database]; simpl.
    + apply handle_rows.
    + exists []. now rewrite app_nil_r.
  - rewrite boot_rows. exists []. rewrite app_nil_r. now destruct h.
Qed.

Lemma register_ids_ok b w :
  ids_ok (donors w) -> ids_ok (donors (snd (register b w))).
Proof.
  unfold ids_ok, register, insertQuery, next_id. intros [Hmax Hlt].
  destruct (register_rejects b); [now split|].
  destruct (insert_columns _) as [row|] eqn:Hrow; [|now split].
  destruct (insert_columns_row _ _ Hrow)
    as (nm & ag & bg & ph & em & ad & la & lo & _ & _ & ->).
  destruct (id_taken _ _ || phone_taken _ _); simpl;
    (split; [lia|]); intros Hnext.
  - eapply Forall_impl; [|apply Hlt; lia]. simpl. intros; lia.
  - apply Forall_app. split.
    + eapply Forall_impl; [|apply Hlt; lia]. simpl. intros; lia.
    + constructor; [simpl; lia | constructor].
Qed.

Lemma step_ok e h : host_ok h -> host_ok (step e h).
Proof.
  destruct e as [r|c]; simpl.
  - destruct h as [w|database]; [|easy].
    unfold host_ok. simpl. intros [Hphones Hids].
    destruct r as [b|q]; simpl.
    + split; [now apply register_table_ok | now apply register_ids_ok].
    + now rewrite search_keeps_table.
  - unfold boot, initializeDatabase, host_ok.
    destruct c; [|easy]. simpl.
    destruct (table_of h) as [t|]; simpl; [easy|].
    intros _. split; [split; constructor|].
    split; [discriminate | intros _; constructor].
Qed.

Lemma run_ok es h : host_ok h -> host_ok (run es h).
Proof.
  revert h. induction es as [|e es IH]; intros h Hh; [exact Hh|].
  simpl. apply IH. now apply step_ok.
Qed.

End LifetimeFacts.

Lemma run_keeps_row {E : Engine} (events : list Event) (h : Host) d :
  In d (rows_of h) -> In d (rows_of (run events h)).
Proof.
  revert h. induction events as [|e es IH]; intros h Hd; [exact Hd|].
  simpl. apply IH. destruct (step_rows e h) as [ext ->].
  apply in_or_app. now left.
Qed.

(** X1.  Whatever requests, starts and restarts a fresh machine has
    seen, the ids of the rows of the table are pairwise distinct, and so
    are their phone numbers. *)
Theorem ids_and_phones_stay_distinct :
  forall (E : Engine) (events : list Event),
    NoDup (map Donor.id (rows_of (run events fresh_host)))
    /\ NoDup (map Donor.phone (rows_of (run events fresh_host))).
Proof.
  intros E events.
  pose proof (run_ok events fresh_host I) as Hok.
  unfold host_ok, rows_of in *.
  destruct (table_of (run events fresh_host)) as [t|].
  - destruct Hok as [[Hids Hphones] _]. now split.
  - split; constructor.
Qed.

(** X2.  The table only grows at its end: the rows before any sequence
    of requests, starts and restarts are a prefix of the rows after it.
    No row is ever changed or removed. *)
Theorem rows_are_only_appended :
  forall (E : Engine) (events : list Event) (h : Host),
    exists ext, rows_of (run events h) = rows_of h ++ ext.
Proof.
  intros E events. induction events as [|e es IH]; intros h.
  - exists []. now rewrite app_nil_r.
  - simpl. destruct (IH (step e h)) as [ext2 H2].
    destruct (step_rows e h) as [ext1 H1].
    exists (ext1 ++ ext2). now rewrite H2, H1, app_assoc.
Qed.

(** ** What the answers of [register] mean *)

Section Answers.

Context {E : Engine}.

(** The text columns of the row [insert_columns] builds. *)
Lemma insert_columns_texts params row :
  insert_columns params = Some row ->
  forall id,
    not_null (to_varchar 255) (Sql.placeholder params 0) = Some (Donor.name (row id))
    /\ not_null (to_varchar 3) (Sql.placeholder params 2)
       = Some (Donor.bloodGroup (row id))
    /\ not_null (to_varchar 20) (Sql.placeholder params 3)
       = Some (Donor.phone (row id))
    /\ not_null (to_varchar 255) (Sql.placeholder params 4)
       = Some (Donor.email (row id))
    /\ Donor.id (row id) = id.
Proof.
  unfold insert_columns.
  destruct (not_null (to_varchar 255) (Sql.placeholder params 0)) as [name|];
    [|discriminate].
  destruct (not_null to_int _) as [age|]; [|discriminate].
  destruct (not_null (to_varchar 3) _) as [bg|]; [|discriminate].
  destruct (not_null (to_varchar 20) _) as [phone|]; [|discriminate].
  destruct (not_null (to_varchar 255) (Sql.placeholder params 4)) as [email|];
    [|discriminate].
  destruct (not_null to_text _) as [address|]; [|discriminate].
  destruct (not_null (to_decimal 10 8) _) as [lat|]; [|discriminate].
  destruct (not_null (to_decimal 11 8) _) as [lon|]; [|discriminate].
  intros [= <-] id. now repeat split.
Qed.

(** A text that fits its VARCHAR column is stored as it was sent. *)
Lemma stored_as_sent n v s stored :
  v = Js.Str s -> (String.length s <= n)%nat ->
  not_null (to_varchar n) (Sql.escape v) = Some stored -> stored = s.
Proof.
  intros -> Hlen. simpl. rewrite (to_varchar_fits n s Hlen). congruence.
Qed.

Lemma register_conflict b w w' :
  register b w = (Status409, w') ->
  exists row,
    insert_columns (insert_params b) = Some row
    /\ (id_taken (auto_increment (donors w)) (donors w) = true
        \/ phone_taken (Donor.phone (row (auto_increment (donors w))))
                       (donors w) = true)
    /\ rows (donors w') = rows (donors w).
Proof.
  unfold register, insertQuery.
  destruct (register_rejects b); [discriminate|].
  destruct (insert_columns _) as [row|]; [|discriminate].
  destruct (id_taken _ _ || phone_taken _ _) eqn:Ht; [|discriminate].
  intros [= <-]. exists row. split; [reflexivity|].
  split; [now apply orb_true_iff | reflexivity].
Qed.

End Answers.

(** X3.  A 409 has one of two causes, and writes nothing.  Either the
    table holds a row whose phone equals, under the column's collation,
    the phone of the request as VARCHAR(20) stores it; or the ids are
    used up: the counter of [id INT AUTO_INCREMENT] stands at
    2147483647 and a row has that id, so that the insertion is a
    duplicate on the primary key, which the handler answers like a
    duplicate phone.  On a machine started fresh, a 409 while the
    counter is below 2147483647 therefore means that the phone is
    taken. *)
Theorem conflict_means_the_phone_is_taken :
  forall (E : Engine) (events : list Event) (w : World) (b : Body.t)
         (w' : World),
    run events fresh_host = Running w ->
    register b w = (Status409, w') ->
    rows (donors w') = rows (donors w)
    /\ ((exists phone d,
            not_null (to_varchar 20) (Sql.escape (Body.phone b)) = Some phone
            /\ In d (rows (donors w))
            /\ collate_eqb (Donor.phone d) phone = true)
        \/ (auto_increment (donors w) = INT_MAX
            /\ exists d, In d (rows (donors w)) /\ Donor.id d = INT_MAX)).
Proof.
  intros E events w b w' Hrun H.
  pose proof (run_ok events fresh_host I) as Hok.
  rewrite Hrun in Hok. destruct Hok as [_ [Hmax Hlt]]. simpl in Hmax, Hlt.
  apply register_conflict in H as (row & Hrow & [Hid|Hphone] & Hrows);
    (split; [exact Hrows|]).
  - right. unfold id_taken in Hid.
    apply existsb_exists in Hid as (d & Hd & Heq). apply Z.eqb_eq in Heq.
    assert (auto_increment (donors w) = INT_MAX) as Hfull.
    { destruct (Z.eq_dec (auto_increment (donors w)) INT_MAX) as [|Hne];
        [assumption|].
      assert (auto_increment (donors w) < INT_MAX)%Z as Hbelow by lia.
      specialize (Hlt Hbelow). rewrite Forall_forall in Hlt.
      specialize (Hlt d Hd). lia. }
    split; [exact Hfull|]. exists d. split; [exact Hd | congruence].
  - left.
    destruct (insert_columns_texts _ _ Hrow (auto_increment (donors w)))
      as (_ & _ & Hstored & _).
    unfold phone_taken in Hphone.
    apply existsb_exists in Hphone as (d & Hd & Heq).
    exists (Donor.phone (row (auto_increment (donors w)))), d.
    now repeat split.
Qed.

Lemma conflict_means_the_phone_is_taken_witness :
  rows (donors (snd (register (E := Engines.storage_order) ravi
                       (snd (register (E := Engines.storage_order)
                                      asha initial)))))
  = [asha_row]
  /\ exists phone d,
       not_null (to_varchar (Engine := Engines.storage_order) 20)
                (Sql.escape (Body.phone ravi)) = Some phone
       /\ In d [asha_row]
       /\ String.eqb (Donor.phone d) phone = true.
Proof.
  destruct (conflict_means_the_phone_is_taken
              Engines.storage_order [Start true; Serve (PostDonor asha)]
              (snd (register (E := Engines.storage_order) asha initial))
              ravi
              (snd (register (E := Engines.storage_order) ravi
                      (snd (register (E := Engines.storage_order)
                                     asha initial)))))
    as (Hrows & [Htaken|(Hfull & _)]).
  - reflexivity.
  - reflexivity.
  - split; [exact Hrows | exact Htaken].
  - discriminate Hfull.
Defined.

(** X4.  A 201 means one new row at the end of the table, carrying the
    returned id, which no earlier row has; a name, blood group, phone or
    email sent as text that fits its column (255, 3, 20, 255 characters)
    is stored exactly as sent. *)
Theorem created_means_stored_as_sent :
  forall (E : Engine) (events : list Event) (w : World) (b : Body.t)
         (id : Z) (w1 : World),
    run events fresh_host = Running w ->
    register b w = (Status201 id, w1) ->
    exists d,
      rows (donors w1) = rows (donors w) ++ [d]
      /\ Donor.id d = id
      /\ ~ In id (map Donor.id (rows (donors w)))
      /\ (forall s, Body.name b = Js.Str s -> (String.length s <= 255)%nat ->
                    Donor.name d = s)
      /\ (forall s, Body.bloodGroup b = Js.Str s ->
                    (String.length s <= 3)%nat -> Donor.bloodGroup d = s)
      /\ (forall s, Body.phone b = Js.Str s -> (String.length s <= 20)%nat ->
                    Donor.phone d = s)
      /\ (forall s, Body.email b = Js.Str s -> (String.length s <= 255)%nat ->
                    Donor.email d = s).
Proof.
  intros E events w b id w1 Hrun H.
  pose proof (register_created_fresh _ _ _ _ H) as Hfresh.
  apply register_created in H as (_ & -> & row & Hrow & _ & ->).
  destruct (insert_columns_texts _ _ Hrow (auto_increment (donors w)))
    as (Hname & Hbg & Hphone & Hemail & Hid).
  exists (row (auto_increment (donors w))).
  split; [reflexivity|]. split; [exact Hid|]. split.
  - exact Hfresh.
  - repeat split; intros s Hs Hlen.
    + exact (stored_as_sent 255 _ s _ Hs Hlen Hname).
    + exact (stored_as_sent 3 _ s _ Hs Hlen Hbg).
    + exact (stored_as_sent 20 _ s _ Hs Hlen Hphone).
    + exact (stored_as_sent 255 _ s _ Hs Hlen Hemail).
Qed.

Lemma created_means_stored_as_sent_witness :
  exists d,
    rows (donors (snd (register (E := Engines.storage_order) meera
                         (snd (register (E := Engines.storage_order)
                                        asha initial)))))
    = [asha_row] ++ [d]
    /\ Donor.id d = 2%Z
    /\ Donor.name d = "Meera" /\ Donor.phone d = "5550101".
Proof.
  destruct (created_means_stored_as_sent Engines.storage_order
              [Start true; Serve (PostDonor asha)]
              (snd (register (E := Engines.storage_order) asha initial))
              meera 2%Z
              (snd (register (E := Engines.storage_order) meera
                      (snd (register (E := Engines.storage_order)
                                     asha initial)))))
    as (d & Hrows & Hid & _ & Hname & _ & Hphone & _).
  - reflexivity.
  - reflexivity.
  - exists d. split; [exact Hrows|]. split; [exact Hid|]. split.
    + apply Hname; [reflexivity | simpl; lia].
    + apply Hphone; [reflexivity | simpl; lia].
Defined.

(** ** What a search returns *)

Section Found.

Context {E : Engine}.





(** The rows of the answer, one by one. *)
Lemma in_searchQuery q t m :
  In m (searchQuery (search_params q) t) <->
  exists d x,
    In d (rows t)
    /\ where_bloodGroup (Sql.escape (Query.bloodGroup q)) d = true
    /\ searchQuery_distance double_arith (search_params q) d = Some x
    /\ double_lt x (of_decimal double_arith 15) = true
    /\ m = as_match d (double_value x).
Proof.
  unfold searchQuery, findByBloodGroup.
  change (Sql.placeholder (search_params q) 3)
    with (Sql.escape (Query.bloodGroup q)).
  split.
  - intros Hm.
    apply (Permutation_in _ (Permutation_sym (order_by_perm _))) in Hm.
    apply in_flat_map in Hm as (d & Hd & Hm).
    apply filter_In in Hd as [Hd Hbg].
    apply in_select_having in Hm as (x & Hx & Hlt & ->).
    now exists d, x.
  - intros (d & x & Hd & Hbg & Hx & Hlt & ->).
    apply (Permutation_in _ (order_by_perm _)).
    apply in_flat_map. exists d. split.
    + apply filter_In. now split.
    + apply in_select_having. now exists x.
Qed.

(** The distance column looks at the coordinates of the row only. *)
Lemma searchQuery_distance_row (A : Arith) params d d' :
  Donor.latitude d = Donor.latitude d' ->
  Donor.longitude d = Donor.longitude d' ->
  searchQuery_distance A params d = searchQuery_distance A params d'.
Proof. unfold searchQuery_distance. now intros -> ->. Qed.

End Found.



(** X6.  Once a registration has succeeded, every later search for the
    same blood group, after whatever further requests and restarts,
    returns that donor exactly when the distance column the server
    computes for the row has a value and that value is below 15 in the
    server's comparison; a donor whose distance column is NULL is not
    returned. *)
Theorem registered_donor_is_found_within_radius :
  forall (E : Engine) (b : Body.t) (w : World) (id : Z) (w1 : World)
         (bloodGroup : string) (events : list Event) (w2 : World)
         (q : Query.t) (found : list Match) (w' : World),
    register b w = (Status201 id, w1) ->
    Body.bloodGroup b = Js.Str bloodGroup ->
    (String.length bloodGroup <= 3)%nat ->
    run events (Running w1) = Running w2 ->
    Query.bloodGroup q = Js.Str bloodGroup ->
    search q w2 = (Status200 found, w') ->
    exists d,
      In d (rows (donors w2)) /\ Donor.id d = id
      /\ match searchQuery_distance double_arith (search_params q) d with
         | Some x =>
             In (as_match d (double_value x)) found
             <-> double_lt x (of_decimal double_arith 15) = true
         | None => forall x, ~ In (as_match d x) found
         end.
Proof.
  intros E b w id w1 bg events w2 q found w' Hreg Hbg Hlen Hrun Hq Hsearch.
  apply register_created in Hreg as (_ & -> & row & Hrow & _ & ->).
  destruct (insert_columns_texts _ _ Hrow (auto_increment (donors w)))
    as (_ & Hstored & _ & _ & Hid).
  set (d := row (auto_increment (donors w))) in *.
  assert (Donor.bloodGroup d = bg) as Hd_bg
      by exact (stored_as_sent 3 _ bg _ Hbg Hlen Hstored).
  assert (In d (rows (donors w2))) as Hd.
  { change (rows (donors w2)) with (rows_of (Running w2)). rewrite <- Hrun.
    apply run_keeps_row. unfold rows_of. simpl.
    apply in_or_app. right. now left. }
  apply search_found in Hsearch as (_ & -> & _).
  assert (forall y d' x',
             as_match d y = as_match d' (double_value x') ->
             searchQuery_distance double_arith (search_params q) d' = Some x' ->
             searchQuery_distance double_arith (search_params q) d = Some x')
    as Hsame.
  { intros y d' x' Heq <-. apply searchQuery_distance_row.
    - exact (f_equal m_latitude Heq).
    - exact (f_equal m_longitude Heq). }
  exists d. split; [exact Hd|]. split; [exact Hid|].
  destruct (searchQuery_distance double_arith (search_params q) d)
    as [x|] eqn:Hx.
  - split.
    + intros Hin.
      apply in_searchQuery in Hin as (d' & x' & _ & _ & Hx' & Hlt & Heq).
      pose proof (Hsame _ _ _ Heq Hx') as Hxx. now injection Hxx as ->.
    + intros Hlt. apply in_searchQuery. exists d, x.
      repeat split; try assumption.
      rewrite Hq. simpl. rewrite Hd_bg. apply collate_refl.
  - intros y Hin.
    apply in_searchQuery in Hin as (d' & x' & _ & _ & Hx' & _ & Heq).
    pose proof (Hsame _ _ _ Heq Hx') as Hxx. discriminate Hxx.
Qed.

Lemma registered_donor_is_found_within_radius_witness :
  exists d,
    In d [india_centre_row] /\ Donor.id d = 1%Z
    /\ forall x,
         ~ In (as_match d x)
              (searchQuery (E := Engines.storage_order)
                           (search_params (from_india_centre "B+"))
                           {| rows := [india_centre_row];
                              auto_increment := 2 |}).
Proof.
  destruct (registered_donor_is_found_within_radius Engines.storage_order
              dev initial 1%Z
              (snd (register (E := Engines.storage_order) dev initial))
              "B+" [Serve (GetSearch (from_india_centre "B+")); Start true]
              {| donors := {| rows := [india_centre_row];
                              auto_increment := 2 |};
                 sent := [] |}
              (from_india_centre "B+")
              (searchQuery (E := Engines.storage_order)
                           (search_params (from_india_centre "B+"))
                           {| rows := [india_centre_row];
                              auto_increment := 2 |})
              {| donors := {| rows := [india_centre_row];
                              auto_increment := 2 |};
                 sent := [SelectDonors
                            (search_params (from_india_centre "B+"))] |})
    as (d & Hd & Hid & Hfound).
  - reflexivity.
  - reflexivity.
  - simpl. lia.
  - reflexivity.
  - reflexivity.
  - reflexivity.
  - exists d. split; [exact Hd|]. split; [exact Hid|].
    destruct Hd as [<-|[]].
    assert (searchQuery_distance
              (E := Engines.storage_order)
              (double_arith (Engine := Engines.storage_order))
              (search_params (from_india_centre "B+")) india_centre_row
            = None) as Hnull by (vm_compute; reflexivity).
    rewrite Hnull in Hfound. exact Hfound.
Defined.



(** * The page

    The script of the front end: its three UI helpers, the map markers,
    the two submit handlers, and the requests they send to the server
    above ([API_BASE_URL] is [http://localhost:3000/api], the port and
    the routes of [server.js]).  An element of the document is the
    record of the properties the script reads or writes; what the
    browser and the network decide (whether a position is obtained,
    whether an address is found, whether the server is reached) is an
    argument of the handler.  One submission runs at a time. *)

(** ** UI helpers *)

Module Dom.

(** A button: [disabled], [textContent] and [dataset.originalText]
    ([None] when the attribute is not there). *)
Record Button : Type := mkButton {
  disabled : bool;
  textContent : string;
  originalText : option string
}.

(** Truthiness of a [dataset] entry: there and not empty. *)
Definition present (v : option string) : bool :=
  match v with
  | Some s => negb (String.eqb s "")
  | None => false
  end.

(** [v || otherwise] *)
Definition or_else (v : option string) (otherwise : string) : string :=
  match v with
  | Some s => if String.eqb s "" then otherwise else s
  | None => otherwise
  end.

(** [setLoadingState(button, isLoading, loadingText)], statement by
    statement. *)
Definition setLoadingState (button : Button) (isLoading : bool)
    (loadingText : string) : Button :=
  let button := mkButton isLoading (textContent button) (originalText button) in
  let button :=
    mkButton (disabled button)
             (if isLoading then loadingText
              else or_else (originalText button) (textContent button))
             (originalText button) in
  if negb isLoading
  then mkButton (disabled button) (textContent button) None
  else if negb (present (originalText button))
       then mkButton (disabled button) (textContent button)
                     (Some (textContent button))
       else button.

(** An element that shows a status: [textContent] and the tokens of
    [className]. *)
Record Element : Type := mkElement {
  text : string;
  className : list string
}.

(** [classList.add(token)] *)
Definition classList_add (token : string) (classes : list string)
    : list string :=
  if existsb (String.eqb token) classes then classes else classes ++ [token].

(** [showStatus(element, message, isSuccess)] *)
Definition showStatus (element : Element) (message : string)
    (isSuccess : bool) : Element :=
  let element := mkElement message (className element) in
  let element := mkElement (text element) ["status-message"] in
  mkElement (text element)
            (classList_add (if isSuccess then "success" else "error")
                           (className element)).

(** [clearStatus(element)] *)
Definition clearStatus (element : Element) : Element :=
  let element := mkElement "" (className element) in
  mkElement (text element) ["status-message"].

End Dom.

Lemma begin_loading (button : Dom.Button) (t : string) :
  Dom.setLoadingState button true t
  = Dom.mkButton true t
                 (if Dom.present (Dom.originalText button)
                  then Dom.originalText button else Some t).
Proof.
  destruct button as [dis txt saved]. unfold Dom.setLoadingState.
  cbn [negb Dom.disabled Dom.textContent Dom.originalText].
  now destruct (Dom.present saved).
Qed.

Lemma end_loading (button : Dom.Button) (t : string) :
  Dom.setLoadingState button false t
  = Dom.mkButton false
                 (Dom.or_else (Dom.originalText button)
                              (Dom.textContent button))
                 None.
Proof. now destruct button. Qed.

(** X8.  One loading cycle, [setLoadingState(button, true, t)] and then
    [setLoadingState(button, false, t')]: the button is enabled again and
    [dataset.originalText] is gone.  Its label is the text saved in
    [dataset.originalText] when there was a non-empty one before the
    cycle; otherwise it is the loading text [t], not the label the
    button had. *)
Theorem loading_cycle_label :
  forall (button : Dom.Button) (t t' : string),
    let after := Dom.setLoadingState (Dom.setLoadingState button true t)
                                     false t' in
    Dom.disabled after = false
    /\ Dom.originalText after = None
    /\ Dom.textContent after
       = (if Dom.present (Dom.originalText button)
          then Dom.or_else (Dom.originalText button) ""
          else t).
Proof.
  intros button t t' after. subst after.
  rewrite begin_loading, end_loading.
  cbn [Dom.disabled Dom.textContent Dom.originalText].
  repeat split.
  destruct (Dom.originalText button) as [saved|]; cbn [Dom.present].
  - destruct (String.eqb saved "") eqn:Hs; cbn [negb Dom.or_else].
    + now destruct (String.eqb t "").
    + now rewrite Hs.
  - cbn [Dom.or_else]. now destruct (String.eqb t "").
Qed.

(** X9.  After two loading cycles in a row the button shows the loading
    text of the second cycle, whatever it showed and whatever was saved
    before: the first cycle deletes [dataset.originalText], so the second
    has nothing to restore. *)
Theorem second_loading_cycle_loses_the_label :
  forall (button : Dom.Button) (t1 t1' t2 t2' : string),
    Dom.textContent
      (Dom.setLoadingState
         (Dom.setLoadingState
            (Dom.setLoadingState (Dom.setLoadingState button true t1)
                                 false t1')
            true t2)
         false t2')
    = t2.
Proof.
  intros button t1 t1' t2 t2'.
  rewrite (end_loading _ t2'), (begin_loading _ t2), (end_loading _ t1').
  cbn [Dom.disabled Dom.textContent Dom.originalText Dom.present Dom.or_else].
  now destruct (String.eqb t2 "").
Qed.

(** ** The search request on the wire *)

Module Url.

Definition API_BASE_URL : string := "http://localhost:3000/api".

(** The URL the seeker form fetches, from the texts of the two numbers
    and the value of the select:
    [`${API_BASE_URL}/donors/search?latitude=${latitude}&longitude=${longitude}&bloodGroup=${bloodGroup}`] *)
Definition search_url (latitude longitude bloodGroup : string) : string :=
  API_BASE_URL ++ "/donors/search?latitude=" ++ latitude
  ++ "&longitude=" ++ longitude ++ "&bloodGroup=" ++ bloodGroup.

(** What Express does with the URL of a request to make [req.query]. *)

(** The query string: what follows the first [?]. *)
Fixpoint search_part (url : string) : string :=
  match url with
  | EmptyString => EmptyString
  | String c rest => if Ascii.eqb c "?" then rest else search_part rest
  end.

Fixpoint has (c : ascii) (s : string) : bool :=
  match s with
  | EmptyString => false
  | String c' rest => Ascii.eqb c' c || has c rest
  end.

Fixpoint split_on (sep : ascii) (s : string) : list string :=
  match s with
  | EmptyString => [EmptyString]
  | String c rest =>
      if Ascii.eqb c sep then EmptyString :: split_on sep rest
      else match split_on sep rest with
           | part :: parts => String c part :: parts
           | [] => [String c EmptyString]
           end
  end.

(** The text before and after the first [sep]. *)
Fixpoint cut_at (sep : ascii) (s : string) : option (string * string) :=
  match s with
  | EmptyString => None
  | String c rest =>
      if Ascii.eqb c sep then Some (EmptyString, rest)
      else match cut_at sep rest with
           | Some (before, after) => Some (String c before, after)
           | None => None
           end
  end.

(** Decoding of a key or a value that holds no [%]: every [+] is a
    space. *)
Fixpoint plus_to_space (s : string) : string :=
  match s with
  | EmptyString => EmptyString
  | String c rest =>
      String (if Ascii.eqb c "+" then " "%char else c) (plus_to_space rest)
  end.

Definition parse_pair (part : string) : string * string :=
  match cut_at "=" part with
  | Some (key, value) => (plus_to_space key, plus_to_space value)
  | None => (plus_to_space part, EmptyString)
  end.

Fixpoint distinct (keys : list string) : bool :=
  match keys with
  | [] => true
  | k :: rest => negb (existsb (String.eqb k) rest) && distinct rest
  end.

(** The query-string parser, on the query strings that yield plain text
    values: no percent escape, no bracket, no key twice, at most 1000
    parts.  Parts are separated by [&], a part is cut at its first [=],
    a part with an empty key is dropped.  [None]: outside this
    fragment. *)
Definition parse (query : string) : option (list (string * string)) :=
  if has "%" query || has "[" query || has "]" query then None
  else
    let parts := split_on "&" query in
    if (1000 <? List.length parts)%nat then None
    else
      let pairs :=
        filter (fun kv => negb (String.eqb (fst kv) EmptyString))
               (map parse_pair parts) in
      if distinct (map fst pairs) then Some pairs else None.

(** [req.query.key]: the value, or [undefined]. *)
Definition get (key : string) (pairs : list (string * string)) : Js.Value :=
  match find (fun kv => String.eqb (fst kv) key) pairs with
  | Some kv => Js.Str (snd kv)
  | None => Js.Undefined
  end.

(** [const { latitude, longitude, bloodGroup } = req.query] for a
    request with this URL. *)
Definition req_query (url : string) : option Query.t :=
  match parse (search_part url) with
  | Some pairs =>
      Some (Query.make (get "latitude" pairs) (get "longitude" pairs)
                       (get "bloodGroup" pairs))
  | None => None
  end.

(** Letters, digits, [.], [-] and [+]: the characters of the text of a
    number and of a blood group. *)
Definition word_char (c : ascii) : bool :=
  let n := nat_of_ascii c in
  ((48 <=? n) && (n <=? 57) || (65 <=? n) && (n <=? 90)
   || (97 <=? n) && (n <=? 122))%nat
  || Ascii.eqb c "." || Ascii.eqb c "-" || Ascii.eqb c "+".

Fixpoint word (s : string) : bool :=
  match s with
  | EmptyString => true
  | String c rest => word_char c && word rest
  end.

End Url.

Section UrlFacts.

Import Url.

Lemma has_app c a b : has c (a ++ b)%string = has c a || has c b.
Proof.
  induction a as [|c' a IH]; simpl; [reflexivity|].
  now rewrite IH, orb_assoc.
Qed.

Lemma split_on_end sep a : has sep a = false -> split_on sep a = [a].
Proof.
  induction a as [|c a IH]; simpl; [reflexivity|].
  intros H. apply orb_false_iff in H as [Hc Ha].
  rewrite Hc, (IH Ha). reflexivity.
Qed.

Lemma split_on_app sep a b :
  has sep a = false ->
  split_on sep (a ++ String sep b)%string = a :: split_on sep b.
Proof.
  induction a as [|c a IH]; simpl.
  - intros _. now rewrite Ascii.eqb_refl.
  - intros H. apply orb_false_iff in H as [Hc Ha].
    rewrite Hc, (IH Ha). reflexivity.
Qed.

Lemma cut_at_app sep a b :
  has sep a = false -> cut_at sep (a ++ String sep b)%string = Some (a, b).
Proof.
  induction a as [|c a IH]; simpl.
  - intros _. now rewrite Ascii.eqb_refl.
  - intros H. apply orb_false_iff in H as [Hc Ha].
    rewrite Hc, (IH Ha). reflexivity.
Qed.

(** A word holds none of the characters the URL and the parser give a
    meaning to. *)
Lemma word_char_plain c :
  word_char c = true ->
  Ascii.eqb c "&" = false /\ Ascii.eqb c "=" = false
  /\ Ascii.eqb c "%" = false /\ Ascii.eqb c "[" = false
  /\ Ascii.eqb c "]" = false /\ Ascii.eqb c "?" = false.
Proof.
  destruct c as [[] [] [] [] [] [] [] []]; vm_compute;
    intros H; try discriminate H; repeat split.
Qed.

Lemma word_has s c :
  word s = true ->
  In c ["&"; "="; "%"; "["; "]"; "?"]%char -> has c s = false.
Proof.
  intros Hw Hc. induction s as [|c' s IH]; simpl; [reflexivity|].
  simpl in Hw. apply andb_true_iff in Hw as [Hc' Hs].
  rewrite (IH Hs), orb_false_r.
  destruct (word_char_plain c' Hc') as (H1 & H2 & H3 & H4 & H5 & H6).
  simpl in Hc.
  destruct Hc as [<-|[<-|[<-|[<-|[<-|[<-|[]]]]]]]; assumption.
Qed.

Lemma search_part_of_search_url latitude longitude bloodGroup :
  search_part (search_url latitude longitude bloodGroup)
  = (("latitude=" ++ latitude) ++ String "&"
       (("longitude=" ++ longitude)
        ++ String "&" ("bloodGroup=" ++ bloodGroup)))%string.
Proof.
  reflexivity.
Qed.

End UrlFacts.

(** X10.  The search URL the page builds from the texts of the two
    numbers and the chosen blood group is read back by the server with
    every [+] turned into a space: [latitude] and [longitude] arrive as
    their texts, and a blood group such as [O+] arrives as [O] followed
    by a space. *)
Theorem plus_in_the_search_url_arrives_as_space :
  forall (latitude longitude bloodGroup : string),
    Url.word latitude = true ->
    Url.word longitude = true ->
    Url.word bloodGroup = true ->
    Url.req_query (Url.search_url latitude longitude bloodGroup)
    = Some (Query.make (Js.Str (Url.plus_to_space latitude))
                       (Js.Str (Url.plus_to_space longitude))
                       (Js.Str (Url.plus_to_space bloodGroup))).
Proof.
  intros lat lon bg Hlat Hlon Hbg.
  assert (forall c s, Url.word s = true ->
                      In c ["&"; "="; "%"; "["; "]"; "?"]%char ->
                      Url.has c s = false) as Hno
      by (intros c s Hs Hc; now apply word_has).
  unfold Url.req_query. rewrite search_part_of_search_url.
  unfold Url.parse.
  rewrite !has_app. simpl Url.has. rewrite !has_app. simpl Url.has.
  rewrite !(Hno "%"%char), !(Hno "["%char), !(Hno "]"%char)
    by (assumption || (simpl; tauto)).
  simpl orb.
  rewrite split_on_app
    by (rewrite has_app; simpl; apply Hno; [assumption | simpl; tauto]).
  rewrite split_on_app
    by (rewrite has_app; simpl; apply Hno; [assumption | simpl; tauto]).
  rewrite split_on_end
    by (rewrite has_app; simpl; apply Hno; [assumption | simpl; tauto]).
  cbn [List.length Nat.ltb Nat.leb map].
  unfold Url.parse_pair.
  change ("latitude=" ++ lat)%string
    with ("latitude" ++ String "=" lat)%string.
  change ("longitude=" ++ lon)%string
    with ("longitude" ++ String "=" lon)%string.
  change ("bloodGroup=" ++ bg)%string
    with ("bloodGroup" ++ String "=" bg)%string.
  rewrite !cut_at_app by reflexivity.
  reflexivity.
Qed.

Lemma plus_in_the_search_url_arrives_as_space_witness :
  Url.req_query (Url.search_url "28.6139" "77.209" "O+")
  = Some (Query.make (Js.Str "28.6139") (Js.Str "77.209") (Js.Str "O ")).
Proof.
  apply (plus_in_the_search_url_arrives_as_space "28.6139" "77.209" "O+").
  - reflexivity.
  - reflexivity.
  - reflexivity.
Defined.

(** ** The map and the document *)

Module Leaflet.

(** A marker: where it stands and the content bound to its popup. *)
Record Marker : Type := mkMarker {
  latlng : Q * Q;
  popup : option string
}.

(** The map with the script's two variables [userMarker] and
    [donorMarkers].  A marker is known by the position at which it was
    made in [made]; [onMap] lists the marker layers of the map in the
    order they were added (the tile layer is never touched and is left
    out). *)
Record Map : Type := mkMap {
  made : list Marker;
  onMap : list nat;
  view : (Q * Q) * Z;
  popupOpen : option nat;
  userMarker : option nat;
  donorMarkers : list nat
}.

(** [L.marker(latlng)]: a new marker, on no map yet. *)
Definition marker (at_ : Q * Q) (m : Map) : nat * Map :=
  (List.length (made m),
   mkMap (made m ++ [mkMarker at_ None]) (onMap m) (view m) (popupOpen m)
         (userMarker m) (donorMarkers m)).

(** [marker.addTo(map)]: nothing happens when it is already there. *)
Definition addTo (id : nat) (m : Map) : Map :=
  mkMap (made m)
        (if existsb (Nat.eqb id) (onMap m) then onMap m else onMap m ++ [id])
        (view m) (popupOpen m) (userMarker m) (donorMarkers m).

Fixpoint bind (id : nat) (content : string) (l : list Marker) : list Marker :=
  match l, id with
  | [], _ => []
  | mk :: rest, O => mkMarker (latlng mk) (Some content) :: rest
  | mk :: rest, S id' => mk :: bind id' content rest
  end.

(** [marker.bindPopup(content)] *)
Definition bindPopup (id : nat) (content : string) (m : Map) : Map :=
  mkMap (bind id content (made m)) (onMap m) (view m) (popupOpen m)
        (userMarker m) (donorMarkers m).

(** [marker.openPopup()], for a marker that is on the map. *)
Definition openPopup (id : nat) (m : Map) : Map :=
  mkMap (made m) (onMap m) (view m)
        (if existsb (Nat.eqb id) (onMap m) then Some id else popupOpen m)
        (userMarker m) (donorMarkers m).

(** [map.removeLayer(marker)]: the marker leaves the map, and its popup
    with it. *)
Definition removeLayer (id : nat) (m : Map) : Map :=
  mkMap (made m)
        (filter (fun i => negb (Nat.eqb i id)) (onMap m))
        (view m)
        (match popupOpen m with
         | Some i => if Nat.eqb i id then None else Some i
         | None => None
         end)
        (userMarker m) (donorMarkers m).

(** [map.setView(center, zoom)] *)
Definition setView (center : Q * Q) (zoom : Z) (m : Map) : Map :=
  mkMap (made m) (onMap m) (center, zoom) (popupOpen m) (userMarker m)
        (donorMarkers m).

Definition set_userMarker (u : option nat) (m : Map) : Map :=
  mkMap (made m) (onMap m) (view m) (popupOpen m) u (donorMarkers m).

Definition set_donorMarkers (l : list nat) (m : Map) : Map :=
  mkMap (made m) (onMap m) (view m) (popupOpen m) (userMarker m) l.

(** The map as the script leaves it when the document has loaded:
    [L.map('map').setView([20.5937, 78.9629], 5)], no marker. *)
Definition loaded : Map :=
  mkMap [] [] ((20.5937, 78.9629), 5%Z) None None [].

(** [clearMap()] *)
Definition clearMap (m : Map) : Map :=
  let m :=
    match userMarker m with
    | Some u => set_userMarker None (removeLayer u m)
    | None => m
    end in
  let m := fold_left (fun m id => removeLayer id m) (donorMarkers m) m in
  set_donorMarkers [] m.

(** The markers the script keeps track of. *)
Definition tracked (m : Map) : list nat :=
  match userMarker m with
  | Some u => u :: donorMarkers m
  | None => donorMarkers m
  end.

End Leaflet.

(** The elements of the document the script holds, and the map. *)
Record Page : Type := mkPage {
  registerBtn : Dom.Button;
  searchBtn : Dom.Button;
  registerStatus : Dom.Element;
  searchStatus : Dom.Element;
  resultsList : string;                      (* innerHTML *)
  searchBloodGroup : string;                 (* value of the select *)
  donorForm : list (string * string);        (* entries, in document order *)
  donorFormDefaults : list (string * string);(* what reset() brings back *)
  map_ : Leaflet.Map
}.

Definition set_registerBtn (b : Dom.Button) (p : Page) : Page :=
  mkPage b (searchBtn p) (registerStatus p) (searchStatus p) (resultsList p)
         (searchBloodGroup p) (donorForm p) (donorFormDefaults p) (map_ p).

Definition set_searchBtn (b : Dom.Button) (p : Page) : Page :=
  mkPage (registerBtn p) b (registerStatus p) (searchStatus p) (resultsList p)
         (searchBloodGroup p) (donorForm p) (donorFormDefaults p) (map_ p).

Definition set_registerStatus (e : Dom.Element) (p : Page) : Page :=
  mkPage (registerBtn p) (searchBtn p) e (searchStatus p) (resultsList p)
         (searchBloodGroup p) (donorForm p) (donorFormDefaults p) (map_ p).

Definition set_searchStatus (e : Dom.Element) (p : Page) : Page :=
  mkPage (registerBtn p) (searchBtn p) (registerStatus p) e (resultsList p)
         (searchBloodGroup p) (donorForm p) (donorFormDefaults p) (map_ p).

Definition set_resultsList (html : string) (p : Page) : Page :=
  mkPage (registerBtn p) (searchBtn p) (registerStatus p) (searchStatus p) html
         (searchBloodGroup p) (donorForm p) (donorFormDefaults p) (map_ p).

Definition set_map (m : Leaflet.Map) (p : Page) : Page :=
  mkPage (registerBtn p) (searchBtn p) (registerStatus p) (searchStatus p)
         (resultsList p) (searchBloodGroup p) (donorForm p)
         (donorFormDefaults p) m.

(** [donorForm.reset()] *)
Definition reset_donorForm (p : Page) : Page :=
  mkPage (registerBtn p) (searchBtn p) (registerStatus p) (searchStatus p)
         (resultsList p) (searchBloodGroup p) (donorFormDefaults p)
         (donorFormDefaults p) (map_ p).

(** ** The handlers *)

(** What the browser reports for the position. *)
Inductive Geolocation : Type :=
| NoGeolocation                         (* [navigator.geolocation] is absent *)
| NoPosition                            (* the error callback is called *)
| Position (latitude longitude : Q).

(** A promise, settled. *)
Inductive Settled (T : Type) : Type :=
| Resolved (value : T)
| Rejected (message : string).          (* [new Error(message)] *)

Arguments Resolved {T} _.
Arguments Rejected {T} _.

(** Whether a request of the page reaches the server. *)
Inductive Network : Type :=
| Reached
| Unreachable (message : string).       (* [fetch] rejects *)

(** The answer of the geocoding service to [geocodeAddress]: the fetch
    or the decoding fails, or there is a list of results with the texts
    of their [lat] and [lon]. *)
Inductive Nominatim : Type :=
| NoAnswer
| Results (data : list (string * string)).

(** [getCurrentLocation()].  Without [navigator.geolocation] the promise
    is rejected first; what the executor does after that cannot change
    it. *)
Definition getCurrentLocation (g : Geolocation) : Settled (Q * Q) :=
  match g with
  | NoGeolocation => Rejected "Geolocation is not supported by your browser."
  | NoPosition =>
      Rejected
        "Unable to retrieve your location. Please enable location services."
  | Position latitude longitude => Resolved (latitude, longitude)
  end.

(** The [message] of the JSON the register handler answers with. *)
Definition register_message (r : Response) : string :=
  match r with
  | Status201 _ => "Donor registered successfully!"
  | Status400 => "Please provide all required fields."
  | Status409 => "A donor with this phone number is already registered."
  | Status500 => "Internal server error."
  | Status200 _ => ""
  end.

Definition dq : string := String "034"%char EmptyString.
Definition nl : string := String "010"%char EmptyString.

Definition no_donors_html : string :=
  "<p>No donors found within a 15km radius for the selected blood group.</p>".

Definition error_html (message : string) : string :=
  "<p class=" ++ dq ++ "error" ++ dq ++ ">" ++ message ++ "</p>".

(** A JavaScript object with text or number properties, as the list of
    its assignments; the last assignment to a key is its value. *)
Definition property (key : string) (object : list (string * Js.Value))
    : Js.Value :=
  match find (fun kv => String.eqb (fst kv) key) (rev object) with
  | Some kv => snd kv
  | None => Js.Undefined
  end.

(** A number of the page in a JSON body: NaN and the infinities
    ([None]) are written [null]. *)
Definition json_number (x : option Q) : Js.Value :=
  match x with
  | Some q => Js.Number q
  | None => Js.Null
  end.

(** [const { name, age, bloodGroup, phone, email, address, latitude,
    longitude } = req.body] for the body [JSON.stringify(payload)]. *)
Definition req_body (payload : list (string * Js.Value)) : Body.t :=
  Body.make (property "name" payload) (property "age" payload)
            (property "bloodGroup" payload) (property "phone" payload)
            (property "email" payload) (property "address" payload)
            (property "latitude" payload) (property "longitude" payload).

Section Handlers.

Context {E : Engine}.

(** Built-ins of the language: the text of a number in a template
    literal, [toFixed(2)], [parseFloat] ([None]: not a finite number). *)
Variable number_text : Q -> string.
Variable toFixed2 : R -> string.
Variable parseFloat : string -> option Q.

(** [geocodeAddress(address)] *)
Definition geocodeAddress (n : Nominatim) : option (option Q * option Q) :=
  match n with
  | NoAnswer => None
  | Results [] => None
  | Results ((lat, lon) :: _) => Some (parseFloat lat, parseFloat lon)
  end.

(** One item of the list [displayResults] writes. *)
Definition donor_item (donor : Match) : string :=
  nl ++ "            <div class=" ++ dq ++ "donor-item" ++ dq ++ ">"
  ++ nl ++ "                <strong>Name:</strong> " ++ m_name donor ++ "<br>"
  ++ nl ++ "                <strong>Blood Group:</strong> "
  ++ m_bloodGroup donor ++ "<br>"
  ++ nl ++ "                <strong>Phone:</strong> " ++ m_phone donor ++ "<br>"
  ++ nl ++ "                <strong>Distance:</strong> "
  ++ toFixed2 (m_distance donor) ++ " km away"
  ++ nl ++ "            </div>"
  ++ nl ++ "        ".

Definition donor_popup (donor : Match) : string :=
  "<b>" ++ m_name donor ++ "</b><br>Blood Group: " ++ m_bloodGroup donor
  ++ "<br>Phone: " ++ m_phone donor.

(** The body of [donors.forEach(donor => ...)]. *)
Definition add_donor_marker (m : Leaflet.Map) (donor : Match) : Leaflet.Map :=
  let (id, m) := Leaflet.marker (m_latitude donor, m_longitude donor) m in
  let m := Leaflet.addTo id m in
  let m := Leaflet.bindPopup id (donor_popup donor) m in
  Leaflet.set_donorMarkers (Leaflet.donorMarkers m ++ [id]) m.

(** [displayResults(donors)] *)
Definition displayResults (donors : list Match) (p : Page) : Page :=
  if (List.length donors =? 0)%nat
  then set_resultsList no_donors_html p
  else
    let p := set_resultsList (String.concat "" (map donor_item donors)) p in
    set_map (fold_left add_donor_marker donors (map_ p)) p.

(** The [catch] of the seeker handler. *)
Definition search_failed (message : string) (p : Page) : Page :=
  let p := set_searchStatus (Dom.showStatus (searchStatus p) message false) p in
  set_resultsList (error_html message) p.

(** The statements of the seeker handler before its [try]. *)
Definition seeker_begin (p : Page) : Page :=
  let p := set_searchBtn
             (Dom.setLoadingState (searchBtn p) true "Searching...") p in
  let p := set_searchStatus (Dom.clearStatus (searchStatus p)) p in
  let p := set_resultsList "<p>Searching for donors...</p>" p in
  set_map (Leaflet.clearMap (map_ p)) p.

(** [userMarker = L.marker([latitude, longitude]).addTo(map)
      .bindPopup('Your Location').openPopup();
    map.setView([latitude, longitude], 13);] *)
Definition show_user (latitude longitude : Q) (m : Leaflet.Map)
    : Leaflet.Map :=
  let (id, m) := Leaflet.marker (latitude, longitude) m in
  let m := Leaflet.addTo id m in
  let m := Leaflet.bindPopup id "Your Location" m in
  let m := Leaflet.openPopup id m in
  let m := Leaflet.set_userMarker (Some id) m in
  Leaflet.setView (latitude, longitude) 13 m.

(** The [try] of the seeker handler with its [catch], against the
    server in state [w].  [None]: the URL is outside the fragment
    [Url.parse] reads, or the answer is one [search] never gives. *)
Definition seeker_try (g : Geolocation) (net : Network) (p : Page)
    (w : World) : option (Page * World) :=
  let bloodGroup := searchBloodGroup p in
  match getCurrentLocation g with
  | Rejected message => Some (search_failed message p, w)
  | Resolved (latitude, longitude) =>
      let p := set_map (show_user latitude longitude (map_ p)) p in
      let url := Url.search_url (number_text latitude)
                                (number_text longitude) bloodGroup in
      match net with
      | Unreachable message => Some (search_failed message p, w)
      | Reached =>
          q <- Url.req_query url ;;
          let (response, w') := search q w in
          match response with
          | Status200 donors => Some (displayResults donors p, w')
          | Status201 _ => None
          | _ => Some (search_failed "Could not fetch donor data." p, w')
          end
      end
  end.

(** The submit handler of the seeker form: the statements before the
    [try], the [try], and the [finally]. *)
Definition seekerSubmit (g : Geolocation) (net : Network) (p : Page)
    (w : World) : option (Page * World) :=
  tried <- seeker_try g net (seeker_begin p) w ;;
  let (p, w) := tried in
  Some (set_searchBtn
          (Dom.setLoadingState (searchBtn p) false "Search Nearby") p,
        w).

(** The [catch] of the donor handler. *)
Definition register_failed (message : string) (p : Page) : Page :=
  set_registerStatus (Dom.showStatus (registerStatus p) message false) p.

(** [{ ...Object.fromEntries(formData.entries()), latitude: coords.lat,
    longitude: coords.lon }] *)
Definition payload (entries : list (string * string))
    (coords : option Q * option Q) : list (string * Js.Value) :=
  map (fun kv => (fst kv, Js.Str (snd kv))) entries
  ++ [("latitude", json_number (fst coords));
      ("longitude", json_number (snd coords))].

(** The statements of the donor handler before its [try]. *)
Definition donor_begin (p : Page) : Page :=
  let p := set_registerBtn
             (Dom.setLoadingState (registerBtn p) true "Registering...") p in
  set_registerStatus (Dom.clearStatus (registerStatus p)) p.

(** The [try] of the donor handler with its [catch], against the server
    in state [w].  [None]: the answer is one [register] never gives. *)
Definition donor_try (n : Nominatim) (net : Network) (p : Page) (w : World)
    : option (Page * World) :=
  let data := donorForm p in
  match geocodeAddress n with
  | None =>
      Some (register_failed
              "Could not find location for the provided address. Please be more specific."
              p, w)
  | Some coords =>
      match net with
      | Unreachable message => Some (register_failed message p, w)
      | Reached =>
          let (response, w') := register (req_body (payload data coords)) w in
          match response with
          | Status201 donorId =>
              let p :=
                set_registerStatus
                  (Dom.showStatus
                     (registerStatus p)
                     ("Registration successful! Your Donor ID is "
                      ++ number_text (inject_Z donorId))
                     true) p in
              Some (reset_donorForm p, w')
          | Status200 _ => None
          | _ =>
              Some (register_failed
                      (Dom.or_else (Some (register_message response))
                                   "Registration failed.")
                      p, w')
          end
      end
  end.

(** The submit handler of the donor form. *)
Definition donorSubmit (n : Nominatim) (net : Network) (p : Page)
    (w : World) : option (Page * World) :=
  tried <- donor_try n net (donor_begin p) w ;;
  let (p, w) := tried in
  Some (set_registerBtn
          (Dom.setLoadingState (registerBtn p) false "Register as a Donor") p,
        w).

End Handlers.

(** ** Markers *)

Section MarkerFacts.

Import Leaflet.

Lemma filter_twice {T : Type} (f g : T -> bool) (l : list T) :
  filter g (filter f l) = filter (fun x => f x && g x) l.
Proof.
  induction l as [|x l IH]; simpl; [reflexivity|].
  destruct (f x); simpl; [destruct (g x)|]; now rewrite IH.
Qed.

Lemma filter_all {T : Type} (f : T -> bool) (l : list T) :
  (forall x, f x = true) -> filter f l = l.
Proof.
  intros H. induction l as [|x l IH]; simpl; [reflexivity|].
  now rewrite H, IH.
Qed.

Lemma remove_all ids m :
  let m' := fold_left (fun m id => removeLayer id m) ids m in
  onMap m' = filter (fun i => negb (existsb (Nat.eqb i) ids)) (onMap m)
  /\ made m' = made m /\ view m' = view m
  /\ userMarker m' = userMarker m /\ donorMarkers m' = donorMarkers m.
Proof.
  revert m. induction ids as [|id ids IH]; intros m; simpl.
  - repeat split. symmetry. now apply filter_all.
  - destruct (IH (removeLayer id m)) as (H1 & H2 & H3 & H4 & H5).
    rewrite H1, H2, H3, H4, H5. simpl. repeat split.
    rewrite filter_twice. apply filter_ext. intros i.
    now rewrite negb_orb.
Qed.

Lemma bind_length id content l : List.length (bind id content l) = List.length l.
Proof.
  revert id. induction l as [|mk l IH]; intros [|id]; simpl; congruence.
Qed.

(** What the script tracks is what the map holds, without repetition,
    and every tracked marker has been made. *)
Definition tidy (m : Map) : Prop :=
  onMap m = tracked m
  /\ NoDup (tracked m)
  /\ Forall (fun i => (i < List.length (made m))%nat) (tracked m).

Lemma loaded_tidy : tidy loaded.
Proof. repeat split; constructor. Qed.

Lemma clearMap_onMap m :
  onMap (clearMap m)
  = filter (fun i => negb (existsb (Nat.eqb i) (tracked m))) (onMap m)
  /\ made (clearMap m) = made m /\ view (clearMap m) = view m
  /\ userMarker (clearMap m) = None /\ donorMarkers (clearMap m) = [].
Proof.
  unfold clearMap, tracked.
  destruct (userMarker m) as [u|] eqn:Hu.
  - destruct (remove_all (donorMarkers (set_userMarker None (removeLayer u m)))
                         (set_userMarker None (removeLayer u m)))
      as (H1 & H2 & H3 & H4 & H5).
    simpl in *. rewrite H1, H2, H3. repeat split; [|exact H4].
    rewrite filter_twice. apply filter_ext. intros i.
    now rewrite negb_orb.
  - destruct (remove_all (donorMarkers m) m) as (H1 & H2 & H3 & H4 & H5).
    simpl. rewrite H1, H2, H3, H4, Hu. now repeat split.
Qed.

End MarkerFacts.

(** X11.  [clearMap()] takes from the map exactly the markers the script
    tracks, the user marker and the donor markers, and leaves every
    other layer where it was; afterwards the script tracks none, and the
    view of the map is as before. *)
Theorem clearMap_removes_the_tracked_markers_only :
  forall (m : Leaflet.Map),
    Leaflet.onMap (Leaflet.clearMap m)
    = filter (fun i => negb (existsb (Nat.eqb i) (Leaflet.tracked m)))
             (Leaflet.onMap m)
    /\ Leaflet.tracked (Leaflet.clearMap m) = []
    /\ Leaflet.view (Leaflet.clearMap m) = Leaflet.view m.
Proof.
  intros m. destruct (clearMap_onMap m) as (H1 & _ & H3 & H4 & H5).
  split; [exact H1|]. split; [|exact H3].
  unfold Leaflet.tracked. now rewrite H4, H5.
Qed.

(** ** Submissions *)

Inductive Submission : Type :=
| SeekerForm (g : Geolocation) (net : Network)
| DonorForm (n : Nominatim) (net : Network).

Section Submissions.

Context {E : Engine}.
Variable number_text : Q -> string.
Variable toFixed2 : R -> string.
Variable parseFloat : string -> option Q.

Definition submit (s : Submission) (pw : Page * World)
    : option (Page * World) :=
  match s with
  | SeekerForm g net =>
      seekerSubmit number_text toFixed2 g net (fst pw) (snd pw)
  | DonorForm n net =>
      donorSubmit number_text parseFloat n net (fst pw) (snd pw)
  end.

(** Submissions one after the other, each started when the one before
    has finished. *)
Fixpoint submit_all (l : list Submission) (pw : Page * World)
    : option (Page * World) :=
  match l with
  | [] => Some pw
  | s :: rest =>
      match submit s pw with
      | Some pw' => submit_all rest pw'
      | None => None
      end
  end.

Import Leaflet.

Lemma add_donor_marker_tidy m donor :
  tidy m -> tidy (add_donor_marker m donor).
Proof.
  intros (Hon & Hnd & Hlt).
  assert (~ In (List.length (made m)) (tracked m)) as Hfresh.
  { intros Hin. rewrite Forall_forall in Hlt. specialize (Hlt _ Hin). lia. }
  assert (existsb (Nat.eqb (List.length (made m))) (onMap m) = false) as Hex.
  { destruct (existsb _ _) eqn:Hx; [|reflexivity].
    apply existsb_exists in Hx as (i & Hi & Heq).
    apply Nat.eqb_eq in Heq. subst i. rewrite Hon in Hi. contradiction. }
  unfold add_donor_marker, marker, addTo, bindPopup, set_donorMarkers, tidy,
    tracked. cbn [made onMap view popupOpen userMarker donorMarkers].
  rewrite Hex, bind_length, length_app. cbn [List.length].
  assert (tracked m ++ [List.length (made m)]
          = match userMarker m with
            | Some u => u :: donorMarkers m ++ [List.length (made m)]
            | None => donorMarkers m ++ [List.length (made m)]
            end) as Htr
      by (unfold tracked; now destruct (userMarker m)).
  rewrite <- Htr, Hon. split; [reflexivity|]. split.
  - apply NoDup_app; [exact Hnd | repeat constructor; easy |].
    intros i Hi [<-|[]]. contradiction.
  - apply Forall_app. split.
    + eapply Forall_impl; [|exact Hlt]. simpl. intros; lia.
    + repeat constructor. lia.
Qed.

Lemma add_donor_markers_tidy donors m :
  tidy m -> tidy (fold_left add_donor_marker donors m).
Proof.
  revert m. induction donors as [|d l IH]; intros m Hm; [exact Hm|].
  simpl. apply IH. now apply add_donor_marker_tidy.
Qed.

Lemma displayResults_map donors p :
  map_ (displayResults toFixed2 donors p)
  = fold_left add_donor_marker donors (map_ p).
Proof.
  unfold displayResults. destruct donors as [|d l]; reflexivity.
Qed.

End Submissions.

(** ** What a submission does *)

Section HandlerFacts.

Context {E : Engine}.
Variable number_text : Q -> string.
Variable toFixed2 : R -> string.
Variable parseFloat : string -> option Q.

Import Leaflet.

(** A refusal of [register] is a 400, a 409 or a 500, and stores
    nothing. *)
Lemma register_refused b w r w1 :
  register b w = (r, w1) ->
  (forall id, r <> Status201 id) ->
  (r = Status400 \/ r = Status409 \/ r = Status500)
  /\ rows (donors w1) = rows (donors w).
Proof.
  unfold register, insertQuery.
  destruct (register_rejects b); [intros [= <- <-]; tauto|].
  destruct (insert_columns _) as [row|]; [|intros [= <- <-]; tauto].
  destruct (id_taken _ _ || phone_taken _ _); intros [= <- <-] Hr; [tauto|].
  now destruct (Hr (auto_increment (donors w))).
Qed.

(** A map on which the script tracks nothing and has left nothing. *)
Definition clean (m : Map) : Prop :=
  onMap m = [] /\ userMarker m = None /\ donorMarkers m = [].

Lemma clearMap_clean m : onMap m = tracked m -> clean (clearMap m).
Proof.
  intros Hon. destruct (clearMap_onMap m) as (H1 & _ & _ & Hu & Hd).
  split; [|split; assumption].
  rewrite H1, Hon. apply filter_none. intros i Hi.
  apply negb_false_iff, existsb_exists. exists i.
  split; [exact Hi | apply Nat.eqb_refl].
Qed.

Lemma bind_last l mk content :
  bind (List.length l) content (l ++ [mk])
  = l ++ [mkMarker (latlng mk) (Some content)].
Proof.
  induction l as [|x l IH]; simpl; [reflexivity | now rewrite IH].
Qed.

Lemma show_user_clean la lo m :
  clean m ->
  show_user la lo m
  = mkMap (made m ++ [mkMarker (la, lo) (Some "Your Location")])
          [List.length (made m)] ((la, lo), 13%Z)
          (Some (List.length (made m))) (Some (List.length (made m))) [].
Proof.
  destruct m as [md on v po u dm]. intros (Hon & Hu & Hd).
  simpl in Hon, Hu, Hd. subst on u dm.
  cbv [show_user marker addTo bindPopup openPopup set_userMarker setView
       made onMap view popupOpen userMarker donorMarkers].
  cbn [existsb app]. rewrite Nat.eqb_refl, bind_last. reflexivity.
Qed.

Lemma show_user_tidy la lo m : clean m -> tidy (show_user la lo m).
Proof.
  intros Hc. rewrite (show_user_clean la lo m Hc).
  unfold tidy, tracked. cbn [made onMap userMarker donorMarkers].
  rewrite length_app. cbn [List.length]. rewrite Nat.add_1_r. repeat split.
  - constructor; [intros [] | constructor].
  - constructor; [apply Nat.lt_succ_diag_r | constructor].
Qed.

Lemma add_donor_marker_made m donor :
  made (add_donor_marker m donor)
  = made m ++ [mkMarker (m_latitude donor, m_longitude donor)
                        (Some (donor_popup donor))]
  /\ donorMarkers (add_donor_marker m donor)
     = donorMarkers m ++ [List.length (made m)]
  /\ userMarker (add_donor_marker m donor) = userMarker m
  /\ view (add_donor_marker m donor) = view m.
Proof.
  unfold add_donor_marker, marker, addTo, bindPopup, set_donorMarkers.
  cbn [made onMap view popupOpen userMarker donorMarkers].
  rewrite bind_last. now repeat split.
Qed.

Lemma add_donor_markers_made donors m :
  made (fold_left add_donor_marker donors m)
  = made m ++ map (fun d => mkMarker (m_latitude d, m_longitude d)
                                     (Some (donor_popup d))) donors
  /\ donorMarkers (fold_left add_donor_marker donors m)
     = donorMarkers m ++ seq (List.length (made m)) (List.length donors)
  /\ userMarker (fold_left add_donor_marker donors m) = userMarker m
  /\ view (fold_left add_donor_marker donors m) = view m.
Proof.
  revert m. induction donors as [|d l IH]; intros m; simpl.
  - now rewrite !app_nil_r.
  - destruct (IH (add_donor_marker m d)) as (H1 & H2 & H3 & H4).
    destruct (add_donor_marker_made m d) as (G1 & G2 & G3 & G4).
    rewrite H1, H2, H3, H4, G1, G2, G3, G4, length_app, <- !app_assoc.
    simpl. rewrite Nat.add_1_r. now repeat split.
Qed.

Lemma nth_error_after {T : Type} (l before : list T) :
  map (nth_error (before ++ l)) (seq (List.length before) (List.length l))
  = map Some l.
Proof.
  revert before. induction l as [|x l IH]; intros before; [reflexivity|].
  simpl. rewrite nth_error_app2, Nat.sub_diag by lia. simpl. f_equal.
  specialize (IH (before ++ [x])).
  rewrite <- app_assoc, length_app, Nat.add_1_r in IH. exact IH.
Qed.

(** The list of found donors never reads as the message for none. *)
Lemma donor_items_html d l :
  String.concat "" (map (donor_item toFixed2) (d :: l)) <> no_donors_html.
Proof.
  destruct l as [|d' l]; simpl; discriminate.
Qed.

Lemma seeker_try_map g net p w p' w' :
  seeker_try number_text toFixed2 g net p w = Some (p', w') ->
  clean (map_ p) -> tidy (map_ p').
Proof.
  intros H Hc. unfold seeker_try in H.
  destruct (getCurrentLocation g) as [[la lo]|message].
  - pose proof (show_user_tidy la lo _ Hc) as Ht.
    destruct net as [|message].
    + destruct (Url.req_query _) as [q|]; [|discriminate].
      destruct (search q w) as [[found|id| | |] w1]; try discriminate;
        injection H as <- _; try exact Ht.
      rewrite displayResults_map. now apply add_donor_markers_tidy.
    + injection H as <- _. exact Ht.
  - injection H as <- _. destruct Hc as (Hon & Hu & Hd).
    unfold search_failed, tidy, tracked. simpl. rewrite Hon, Hu, Hd.
    repeat split; constructor.
Qed.

Lemma seeker_try_inert g net p w p' w' :
  seeker_try number_text toFixed2 g net p w = Some (p', w') ->
  searchBtn p' = searchBtn p /\ registerBtn p' = registerBtn p.
Proof.
  unfold seeker_try.
  destruct (getCurrentLocation g) as [[la lo]|message].
  - destruct net as [|message].
    + destruct (Url.req_query _) as [q|]; [|discriminate].
      destruct (search q w) as [[found|id| | |] w1]; try discriminate;
        intros [= <- _]; try (split; reflexivity).
      unfold displayResults. now destruct found.
    + intros [= <- _]. split; reflexivity.
  - intros [= <- _]. split; reflexivity.
Qed.

Lemma seekerSubmit_inv g net p w p' w' :
  seekerSubmit number_text toFixed2 g net p w = Some (p', w') ->
  exists p1,
    seeker_try number_text toFixed2 g net (seeker_begin p) w = Some (p1, w')
    /\ p' = set_searchBtn
              (Dom.setLoadingState (searchBtn p1) false "Search Nearby") p1.
Proof.
  unfold seekerSubmit.
  destruct (seeker_try _ _ _ _ _ _) as [[p1 w1]|]; [|discriminate].
  intros [= <- <-]. now exists p1.
Qed.

Lemma donorSubmit_inv n net p w p' w' :
  donorSubmit number_text parseFloat n net p w = Some (p', w') ->
  exists p1,
    donor_try number_text parseFloat n net (donor_begin p) w = Some (p1, w')
    /\ p' = set_registerBtn
              (Dom.setLoadingState (registerBtn p1) false
                                   "Register as a Donor") p1.
Proof.
  unfold donorSubmit.
  destruct (donor_try _ _ _ _ _ _) as [[p1 w1]|]; [|discriminate].
  intros [= <- <-]. now exists p1.
Qed.

Lemma donor_try_keeps n net p w p' w' :
  donor_try number_text parseFloat n net p w = Some (p', w') ->
  map_ p' = map_ p /\ searchBtn p' = searchBtn p
  /\ registerBtn p' = registerBtn p.
Proof.
  unfold donor_try. destruct (geocodeAddress parseFloat n) as [coords|].
  - destruct net as [|message].
    + destruct (register _ w) as [[found|id| | |] w1]; try discriminate;
        intros [= <- _]; now repeat split.
    + intros [= <- _]. now repeat split.
  - intros [= <- _]. now repeat split.
Qed.

Lemma submit_tidy s p w p' w' :
  submit number_text toFixed2 parseFloat s (p, w) = Some (p', w') ->
  tidy (map_ p) -> tidy (map_ p').
Proof.
  destruct s as [g net|n net]; simpl; intros H Ht.
  - apply seekerSubmit_inv in H as (p1 & Htry & ->).
    apply seeker_try_map in Htry; [exact Htry|].
    apply clearMap_clean, Ht.
  - apply donorSubmit_inv in H as (p1 & Htry & ->).
    apply donor_try_keeps in Htry as (Hmap & _).
    simpl. rewrite Hmap. exact Ht.
Qed.

(** The coordinates of the geocoder are the last assignments of the
    payload. *)
Lemma payload_coordinates entries coords :
  Body.latitude (req_body (payload entries coords))
  = json_number (fst coords)
  /\ Body.longitude (req_body (payload entries coords))
     = json_number (snd coords).
Proof.
  unfold req_body, payload, property. cbn [Body.latitude Body.longitude].
  rewrite rev_app_distr. split; reflexivity.
Qed.

End HandlerFacts.

(** ** A page and built-ins to run the handlers on *)

Module Example.

(** The texts of the numbers of the examples. *)
Definition number_text (q : Q) : string :=
  if Qeq_bool q 28.6139 then "28.6139"
  else if Qeq_bool q 77.2090 then "77.209"
  else if Qeq_bool q 1 then "1"
  else "0".

Definition toFixed2 (x : R) : string := "0.00".

(** [parseFloat] on the texts [Plain.decimal_of_text] reads. *)
Definition parseFloat (s : string) : option Q :=
  match s with
  | EmptyString => None
  | _ => Some (Plain.decimal_of_text s)
  end.

Definition form : list (string * string) :=
  [("name", "Asha"); ("age", "30"); ("bloodGroup", "O+");
   ("phone", "5550100"); ("email", "asha@example.org");
   ("address", "Connaught Place, Delhi")].

Definition page : Page :=
  mkPage (Dom.mkButton false "Register as a Donor" None)
         (Dom.mkButton false "Search Nearby" None)
         (Dom.mkElement "" ["status-message"])
         (Dom.mkElement "" ["status-message"])
         "" "O+" form [] Leaflet.loaded.

(** An engine that also takes the text of a whole number for an INT
    column, which is how the page sends the age. *)
Definition engine : Engine := {|
  collate_eqb := String.eqb;
  collate_refl := String.eqb_refl;
  to_varchar := Plain.varchar;
  to_varchar_fits := varchar_fits;
  to_int := fun v =>
              match v with
              | Sql.Text s => Plain.int (Sql.Num (Plain.decimal_of_text s))
              | _ => Plain.int v
              end;
  to_text := Plain.text;
  to_decimal := Plain.decimal;
  text_to_double := Plain.decimal_of_text;
  double_arith := binary64_arith delhi_libm;
  double_lt := PrimFloat.ltb;
  double_value := b64_value;
  order_by_distance := Plain.sort Plain.Rleb;
  order_by_perm := sort_perm Plain.Rleb;
  order_by_sorted := sort_sorted Plain.Rleb Rleb_before Rleb_after
|}.

(** The body the page sends for the form, the server after this
    registration, and the query the page's search for [O+] from Delhi
    arrives as. *)
Definition body : Body.t :=
  req_body (payload form (Some 28.6139, Some 77.2090)).

Definition world : World := snd (register (E := engine) body initial).

Definition query : Query.t :=
  Query.make (Js.Str "28.6139") (Js.Str "77.209") (Js.Str "O ").

(** A seeker of group A-, and a server whose table holds a donor of
    that group in Rohini. *)
Definition seeker_page : Page :=
  mkPage (registerBtn page) (searchBtn page) (registerStatus page)
         (searchStatus page) (resultsList page) "A-" form [] Leaflet.loaded.

Definition rohini_donor : Donor.t :=
  Donor.make 1 "Ravi" 41 "A-" "5550110" "ravi@example.org" "Rohini, Delhi"
             28.7041 77.1025.

Definition rohini_world : World :=
  {| donors := {| rows := [rohini_donor]; auto_increment := 2 |};
     sent := [] |}.

Definition seeker_query : Query.t :=
  Query.make (Js.Str "28.6139") (Js.Str "77.209") (Js.Str "A-").

End Example.

(** X12.  Markers never pile up.  After any number of submissions of
    the two forms on a freshly loaded page, the marker layers of the map
    are exactly the markers the script tracks, the user marker of the
    last search and its donor markers, each once. *)
Theorem markers_never_pile_up :
  forall (E : Engine) (number_text : Q -> string) (toFixed2 : R -> string)
         (parseFloat : string -> option Q) (l : list Submission)
         (p : Page) (w : World) (p' : Page) (w' : World),
    map_ p = Leaflet.loaded ->
    submit_all number_text toFixed2 parseFloat l (p, w) = Some (p', w') ->
    Leaflet.onMap (map_ p') = Leaflet.tracked (map_ p')
    /\ NoDup (Leaflet.onMap (map_ p')).
Proof.
  intros E number_text toFixed2 parseFloat l p w p' w' Hloaded H.
  assert (tidy (map_ p)) as Ht by (rewrite Hloaded; apply loaded_tidy).
  clear Hloaded. revert p w Ht H.
  induction l as [|s l IH]; intros p w Ht H; simpl in H.
  - injection H as <- _. destruct Ht as (Hon & Hnd & _).
    split; [exact Hon | now rewrite Hon].
  - destruct (submit _ _ _ s (p, w)) as [[p1 w1]|] eqn:Hs; [|discriminate].
    apply (IH p1 w1); [|exact H].
    eapply submit_tidy; [exact Hs | exact Ht].
Qed.

Lemma markers_never_pile_up_witness :
  exists p' w',
    submit_all (E := Example.engine) Example.number_text Example.toFixed2
               Example.parseFloat
               [SeekerForm (Position 28.6139 77.2090) Reached;
                DonorForm (Results [("28.6139", "77.2090")]) Reached;
                SeekerForm NoPosition Reached]
               (Example.page, initial)
    = Some (p', w')
    /\ Leaflet.onMap (map_ p') = Leaflet.tracked (map_ p')
    /\ NoDup (Leaflet.onMap (map_ p')).
Proof.
  eexists. eexists.
  refine ((fun H => conj H (markers_never_pile_up
                              Example.engine Example.number_text
                              Example.toFixed2 Example.parseFloat
                              _ Example.page initial _ _ eq_refl H)) _).
  vm_compute. reflexivity.
Defined.

(** X13.  A search that the server answers with a list.  The page then
    holds one marker for the user, at the position of the browser and
    with the popup [Your Location], and one marker per donor of the
    answer, in the order of the answer, each at the donor's latitude and
    longitude with the donor's name, blood group and phone in its popup;
    these are the markers on the map, the map is centred on the user at
    zoom 13, no error is shown, and the list reads [No donors found
    ...] exactly when the answer is empty. *)
Theorem seeker_sees_the_donors_found :
  forall (E : Engine) (number_text : Q -> string) (toFixed2 : R -> string)
         (latitude longitude : Q) (p : Page) (w : World) (q : Query.t)
         (found : list Match) (w1 : World),
    Leaflet.onMap (map_ p) = Leaflet.tracked (map_ p) ->
    Url.req_query (Url.search_url (number_text latitude)
                                  (number_text longitude)
                                  (searchBloodGroup p)) = Some q ->
    search q w = (Status200 found, w1) ->
    exists p' user,
      seekerSubmit number_text toFixed2 (Position latitude longitude)
                   Reached p w = Some (p', w1)
      /\ Leaflet.userMarker (map_ p') = Some user
      /\ nth_error (Leaflet.made (map_ p')) user
         = Some (Leaflet.mkMarker (latitude, longitude)
                                  (Some "Your Location"))
      /\ map (nth_error (Leaflet.made (map_ p')))
             (Leaflet.donorMarkers (map_ p'))
         = map (fun d => Some (Leaflet.mkMarker
                                 (m_latitude d, m_longitude d)
                                 (Some (donor_popup d)))) found
      /\ Leaflet.onMap (map_ p') = user :: Leaflet.donorMarkers (map_ p')
      /\ Leaflet.view (map_ p') = ((latitude, longitude), 13%Z)
      /\ (resultsList p' = no_donors_html <-> found = [])
      /\ Dom.text (searchStatus p') = "".
Proof.
  intros E number_text toFixed2 la lo p w q found w1 Hon Hq Hs.
  pose proof (clearMap_clean (map_ p) Hon) as Hc.
  set (m0 := Leaflet.clearMap (map_ p)) in Hc.
  set (p1 := set_map (show_user la lo m0) (seeker_begin p)).
  assert (seeker_try number_text toFixed2 (Position la lo) Reached
                     (seeker_begin p) w
          = Some (displayResults toFixed2 found p1, w1)) as Htry.
  { unfold seeker_try. cbn [getCurrentLocation].
    change (searchBloodGroup (seeker_begin p)) with (searchBloodGroup p).
    cbv zeta. rewrite Hq, Hs. reflexivity. }
  unfold seekerSubmit. rewrite Htry.
  eexists. exists (List.length (Leaflet.made m0)).
  split; [reflexivity|].
  change (map_ (set_searchBtn _ (displayResults toFixed2 found p1)))
    with (map_ (displayResults toFixed2 found p1)).
  rewrite displayResults_map.
  change (map_ p1) with (show_user la lo m0).
  pose proof (add_donor_markers_tidy found _ (show_user_tidy la lo m0 Hc))
    as (Htr & _).
  destruct (add_donor_markers_made found (show_user la lo m0))
    as (Hmade & Hdonors & Huser & Hview).
  set (m1 := show_user la lo m0) in *.
  pose proof (f_equal Leaflet.made (show_user_clean la lo m0 Hc)) as H1.
  pose proof (f_equal Leaflet.donorMarkers (show_user_clean la lo m0 Hc))
    as H2.
  pose proof (f_equal Leaflet.userMarker (show_user_clean la lo m0 Hc))
    as H3.
  pose proof (f_equal Leaflet.view (show_user_clean la lo m0 Hc)) as H4.
  fold m1 in H1, H2, H3, H4.
  cbn [Leaflet.made Leaflet.donorMarkers Leaflet.userMarker Leaflet.view]
    in H1, H2, H3, H4.
  rewrite H1 in Hmade, Hdonors. rewrite H2 in Hdonors.
  rewrite H3 in Huser. rewrite H4 in Hview.
  split; [exact Huser|]. split.
  { rewrite Hmade, nth_error_app1
      by (rewrite length_app; simpl; lia).
    rewrite nth_error_app2, Nat.sub_diag by lia. reflexivity. }
  split.
  { rewrite Hmade, Hdonors. cbn [app].
    set (mk := fun d : Match => Leaflet.mkMarker _ _).
    rewrite <- (length_map mk found), nth_error_after, map_map.
    reflexivity. }
  split.
  { rewrite Htr. unfold Leaflet.tracked. now rewrite Huser. }
  split; [exact Hview|]. split.
  - unfold displayResults. destruct found as [|d l].
    + split; reflexivity.
    + split; [|discriminate]. intros Habs. exfalso.
      exact (donor_items_html toFixed2 d l Habs).
  - unfold displayResults. now destruct found.
Qed.

Lemma seeker_sees_the_donors_found_witness :
  exists p' user,
    seekerSubmit (E := Example.engine) Example.number_text Example.toFixed2
                 (Position 28.6139 77.2090) Reached Example.seeker_page
                 Example.rohini_world
    = Some (p', snd (search (E := Example.engine) Example.seeker_query
                            Example.rohini_world))
    /\ Leaflet.userMarker (map_ p') = Some user
    /\ map (nth_error (Leaflet.made (map_ p')))
           (Leaflet.donorMarkers (map_ p'))
       = [Some (Leaflet.mkMarker
                  (28.7041, 77.1025)
                  (Some "<b>Ravi</b><br>Blood Group: A-<br>Phone: 5550110"))]
    /\ Leaflet.view (map_ p') = ((28.6139, 77.2090), 13%Z).
Proof.
  destruct (seeker_sees_the_donors_found
              Example.engine Example.number_text Example.toFixed2
              28.6139 77.2090 Example.seeker_page Example.rohini_world
              Example.seeker_query
              (searchQuery (E := Example.engine)
                           (search_params Example.seeker_query)
                           (donors Example.rohini_world))
              (snd (search (E := Example.engine) Example.seeker_query
                           Example.rohini_world)))
    as (p' & user & Hsub & Huser & _ & Hdonors & _ & Hview & _).
  - reflexivity.
  - reflexivity.
  - reflexivity.
  - exists p', user. split; [exact Hsub|]. split; [exact Huser|].
    split; [|exact Hview].
    rewrite Hdonors. reflexivity.
Defined.

(** X14.  A search that the server refuses with status 400, as it does
    when no blood group is chosen.  The page shows [Could not fetch
    donor data.] as an error in the status line and in the list, not
    the message of the server; the marker of the user stays on the map
    and there is no donor marker. *)
Theorem seeker_is_told_the_data_could_not_be_fetched :
  forall (E : Engine) (number_text : Q -> string) (toFixed2 : R -> string)
         (latitude longitude : Q) (p : Page) (w : World) (q : Query.t)
         (w1 : World),
    Leaflet.onMap (map_ p) = Leaflet.tracked (map_ p) ->
    Url.req_query (Url.search_url (number_text latitude)
                                  (number_text longitude)
                                  (searchBloodGroup p)) = Some q ->
    search q w = (Status400, w1) ->
    exists p' user,
      seekerSubmit number_text toFixed2 (Position latitude longitude)
                   Reached p w = Some (p', w1)
      /\ searchStatus p'
         = Dom.mkElement "Could not fetch donor data."
                         ["status-message"; "error"]
      /\ resultsList p' = error_html "Could not fetch donor data."
      /\ Leaflet.userMarker (map_ p') = Some user
      /\ Leaflet.onMap (map_ p') = [user]
      /\ Leaflet.donorMarkers (map_ p') = [].
Proof.
  intros E number_text toFixed2 la lo p w q w1 Hon Hq Hs.
  pose proof (clearMap_clean (map_ p) Hon) as Hc.
  set (m0 := Leaflet.clearMap (map_ p)) in Hc.
  set (p1 := set_map (show_user la lo m0) (seeker_begin p)).
  assert (seeker_try number_text toFixed2 (Position la lo) Reached
                     (seeker_begin p) w
          = Some (search_failed "Could not fetch donor data." p1, w1))
    as Htry.
  { unfold seeker_try. cbn [getCurrentLocation].
    change (searchBloodGroup (seeker_begin p)) with (searchBloodGroup p).
    cbv zeta. rewrite Hq, Hs. reflexivity. }
  unfold seekerSubmit. rewrite Htry.
  eexists. exists (List.length (Leaflet.made m0)).
  split; [reflexivity|]. split; [reflexivity|]. split; [reflexivity|].
  change (map_ (set_searchBtn _ (search_failed _ p1)))
    with (show_user la lo m0).
  rewrite (show_user_clean la lo m0 Hc). now repeat split.
Qed.

Lemma seeker_is_told_the_data_could_not_be_fetched_witness :
  exists p',
    seekerSubmit (E := Example.engine) Example.number_text Example.toFixed2
                 (Position 28.6139 77.2090) Reached
                 (mkPage (registerBtn Example.page) (searchBtn Example.page)
                         (registerStatus Example.page)
                         (searchStatus Example.page) (resultsList Example.page)
                         EmptyString Example.form [] Leaflet.loaded)
                 initial
    = Some (p', initial)
    /\ resultsList p' = error_html "Could not fetch donor data.".
Proof.
  destruct (seeker_is_told_the_data_could_not_be_fetched
              Example.engine Example.number_text Example.toFixed2
              28.6139 77.2090
              (mkPage (registerBtn Example.page) (searchBtn Example.page)
                      (registerStatus Example.page)
                      (searchStatus Example.page) (resultsList Example.page)
                      EmptyString Example.form [] Leaflet.loaded)
              initial
              (Query.make (Js.Str "28.6139") (Js.Str "77.209")
                          (Js.Str EmptyString))
              initial)
    as (p' & user & Hsub & _ & Hlist & _).
  - reflexivity.
  - reflexivity.
  - reflexivity.
  - exists p'. split; assumption.
Defined.

(** X15.  A registration the server stores.  The status line shows the
    success message with the id the server returned, which is the id of
    the one row the table has gained; the form is reset. *)
Theorem donor_is_shown_the_id_of_the_new_row :
  forall (E : Engine) (number_text : Q -> string)
         (parseFloat : string -> option Q) (n : Nominatim)
         (coords : option Q * option Q) (p : Page) (w : World) (id : Z)
         (w1 : World),
    geocodeAddress parseFloat n = Some coords ->
    register (req_body (payload (donorForm p) coords)) w
    = (Status201 id, w1) ->
    exists p' d,
      donorSubmit number_text parseFloat n Reached p w = Some (p', w1)
      /\ registerStatus p'
         = Dom.mkElement ("Registration successful! Your Donor ID is "
                          ++ number_text (inject_Z id))
                         ["status-message"; "success"]
      /\ donorForm p' = donorFormDefaults p
      /\ rows (donors w1) = rows (donors w) ++ [d]
      /\ Donor.id d = id.
Proof.
  intros E number_text parseFloat n coords p w id w1 Hgeo Hreg.
  pose proof Hreg as Hrow.
  apply register_created in Hrow as (_ & _ & row & Hrow & _ & ->).
  destruct (insert_columns_texts _ _ Hrow id) as (_ & _ & _ & _ & Hid).
  eexists. exists (row id).
  split.
  - unfold donorSubmit, donor_try. rewrite Hgeo.
    change (donorForm (donor_begin p)) with (donorForm p).
    cbv zeta. rewrite Hreg. reflexivity.
  - split; [reflexivity|]. split; [reflexivity|]. split; [reflexivity|].
    exact Hid.
Qed.

Lemma donor_is_shown_the_id_of_the_new_row_witness :
  exists p' d,
    donorSubmit (E := Example.engine) Example.number_text Example.parseFloat
                (Results [("28.6139", "77.2090")]) Reached Example.page
                initial
    = Some (p', Example.world)
    /\ Dom.text (registerStatus p')
       = "Registration successful! Your Donor ID is 1"
    /\ rows (donors Example.world) = [d]
    /\ Donor.id d = 1%Z.
Proof.
  destruct (donor_is_shown_the_id_of_the_new_row
              Example.engine Example.number_text Example.parseFloat
              (Results [("28.6139", "77.2090")])
              (Some 28.6139, Some 77.2090) Example.page initial 1%Z
              Example.world)
    as (p' & d & Hsub & Hstatus & _ & Hrows & Hid).
  - reflexivity.
  - reflexivity.
  - exists p', d. split; [exact Hsub|]. split; [now rewrite Hstatus|].
    split; assumption.
Defined.

(** X16.  A registration the server refuses, with 400, 409 or 500.  The
    status line shows the message of the server as an error, the form
    keeps what was typed, and the table has the rows it had. *)
Theorem donor_is_shown_the_refusal_of_the_server :
  forall (E : Engine) (number_text : Q -> string)
         (parseFloat : string -> option Q) (n : Nominatim)
         (coords : option Q * option Q) (p : Page) (w : World)
         (r : Response) (w1 : World),
    geocodeAddress parseFloat n = Some coords ->
    register (req_body (payload (donorForm p) coords)) w = (r, w1) ->
    (forall id, r <> Status201 id) ->
    exists p',
      donorSubmit number_text parseFloat n Reached p w = Some (p', w1)
      /\ registerStatus p'
         = Dom.mkElement (register_message r) ["status-message"; "error"]
      /\ donorForm p' = donorForm p
      /\ rows (donors w1) = rows (donors w).
Proof.
  intros E number_text parseFloat n coords p w r w1 Hgeo Hreg Hr.
  destruct (register_refused _ _ _ _ Hreg Hr) as (Hcases & Hrows).
  unfold donorSubmit, donor_try. rewrite Hgeo.
  change (donorForm (donor_begin p)) with (donorForm p).
  cbv zeta. rewrite Hreg.
  destruct Hcases as [Hc|[Hc|Hc]]; subst r; eexists;
    (split; [reflexivity|]); (split; [reflexivity|]);
    (split; [reflexivity | exact Hrows]).
Qed.

Lemma donor_is_shown_the_refusal_of_the_server_witness :
  exists p',
    donorSubmit (E := Example.engine) Example.number_text Example.parseFloat
                (Results [("28.6139", "77.2090")]) Reached Example.page
                Example.world
    = Some (p', snd (register (E := Example.engine) Example.body Example.world))
    /\ Dom.text (registerStatus p')
       = "A donor with this phone number is already registered.".
Proof.
  destruct (donor_is_shown_the_refusal_of_the_server
              Example.engine Example.number_text Example.parseFloat
              (Results [("28.6139", "77.2090")])
              (Some 28.6139, Some 77.2090) Example.page Example.world
              Status409
              (snd (register (E := Example.engine) Example.body Example.world)))
    as (p' & Hsub & Hstatus & _).
  - reflexivity.
  - reflexivity.
  - discriminate.
  - exists p'. split; [exact Hsub | now rewrite Hstatus].
Defined.

(** X17.  An address the geocoder has no result for, or no answer of
    the geocoder at all: nothing is sent to the server, the status line
    shows [Could not find location ...] as an error, and the form keeps
    what was typed. *)
Theorem unknown_address_is_not_sent :
  forall (E : Engine) (number_text : Q -> string)
         (parseFloat : string -> option Q) (n : Nominatim) (net : Network)
         (p : Page) (w : World),
    geocodeAddress parseFloat n = None ->
    exists p',
      donorSubmit number_text parseFloat n net p w = Some (p', w)
      /\ registerStatus p'
         = Dom.mkElement
             "Could not find location for the provided address. Please be more specific."
             ["status-message"; "error"]
      /\ donorForm p' = donorForm p.
Proof.
  intros E number_text parseFloat n net p w Hgeo.
  unfold donorSubmit, donor_try. rewrite Hgeo. eexists.
  split; [reflexivity|]. split; reflexivity.
Qed.

Lemma unknown_address_is_not_sent_witness :
  exists p',
    donorSubmit (E := Example.engine) Example.number_text Example.parseFloat
                (Results []) Reached Example.page initial
    = Some (p', initial)
    /\ donorForm p' = Example.form.
Proof.
  destruct (unknown_address_is_not_sent
              Example.engine Example.number_text Example.parseFloat
              (Results []) Reached Example.page initial)
    as (p' & Hsub & _ & Hform).
  - reflexivity.
  - exists p'. split; assumption.
Defined.

(** X18.  A search without a position, because the browser has no
    geolocation or reports an error: nothing is sent to the server, the
    message of the rejection is shown as an error in the status line
    and in the list, and the markers of the search before are gone from
    the map. *)
Theorem search_without_position_is_not_sent :
  forall (E : Engine) (number_text : Q -> string) (toFixed2 : R -> string)
         (g : Geolocation) (net : Network) (message : string) (p : Page)
         (w : World),
    Leaflet.onMap (map_ p) = Leaflet.tracked (map_ p) ->
    getCurrentLocation g = Rejected message ->
    exists p',
      seekerSubmit number_text toFixed2 g net p w = Some (p', w)
      /\ searchStatus p'
         = Dom.mkElement message ["status-message"; "error"]
      /\ resultsList p' = error_html message
      /\ Leaflet.onMap (map_ p') = []
      /\ Leaflet.tracked (map_ p') = [].
Proof.
  intros E number_text toFixed2 g net message p w Hon Hg.
  destruct (clearMap_clean (map_ p) Hon) as (Hempty & Hu & Hd).
  unfold seekerSubmit, seeker_try. rewrite Hg. eexists.
  split; [reflexivity|]. split; [reflexivity|]. split; [reflexivity|].
  split; [exact Hempty|].
  change (Leaflet.tracked (Leaflet.clearMap (map_ p)) = []).
  unfold Leaflet.tracked. now rewrite Hu, Hd.
Qed.

Lemma search_without_position_is_not_sent_witness :
  exists p',
    seekerSubmit (E := Example.engine) Example.number_text Example.toFixed2
                 NoPosition Reached Example.page Example.world
    = Some (p', Example.world)
    /\ resultsList p'
       = error_html
           "Unable to retrieve your location. Please enable location services.".
Proof.
  destruct (search_without_position_is_not_sent
              Example.engine Example.number_text Example.toFixed2
              NoPosition Reached
              "Unable to retrieve your location. Please enable location services."
              Example.page Example.world)
    as (p' & Hsub & _ & Hlist & _).
  - reflexivity.
  - reflexivity.
  - exists p'. split; assumption.
Defined.

(** X19.  An address whose latitude or longitude the geocoder gives as
    0, or as text that is no number, cannot be registered: whatever the
    form holds, the server answers 400 and stores nothing, and the page
    shows [Please provide all required fields.] *)
Theorem address_on_the_equator_is_refused :
  forall (E : Engine) (number_text : Q -> string)
         (parseFloat : string -> option Q) (n : Nominatim)
         (coords : option Q * option Q) (p : Page) (w : World),
    geocodeAddress parseFloat n = Some coords ->
    match fst coords with Some x => x == 0 | None => True end
    \/ match snd coords with Some x => x == 0 | None => True end ->
    exists p',
      donorSubmit number_text parseFloat n Reached p w = Some (p', w)
      /\ registerStatus p'
         = Dom.mkElement "Please provide all required fields."
                         ["status-message"; "error"]
      /\ donorForm p' = donorForm p.
Proof.
  intros E number_text parseFloat n coords p w Hgeo Hzero.
  assert (register (req_body (payload (donorForm p) coords)) w
          = (Status400, w)) as Hreg.
  { unfold register, register_rejects.
    destruct (payload_coordinates (donorForm p) coords) as (-> & ->).
    assert (Js.not (json_number (fst coords)) = true
            \/ Js.not (json_number (snd coords)) = true) as Hnot.
    { destruct Hzero as [H|H]; [left|right];
        [destruct (fst coords) as [x|] | destruct (snd coords) as [x|]];
        try reflexivity;
        unfold Js.not; simpl; apply negb_true_iff, negb_false_iff;
        now apply Qeq_bool_iff. }
    destruct Hnot as [Hn|Hn]; rewrite Hn; now rewrite ?orb_true_r. }
  unfold donorSubmit, donor_try. rewrite Hgeo.
  change (donorForm (donor_begin p)) with (donorForm p).
  cbv zeta. rewrite Hreg. eexists.
  split; [reflexivity|]. split; reflexivity.
Qed.

Lemma address_on_the_equator_is_refused_witness :
  exists p',
    donorSubmit (E := Example.engine) Example.number_text Example.parseFloat
                (Results [("0", "109.3425")]) Reached Example.page initial
    = Some (p', initial)
    /\ Dom.text (registerStatus p') = "Please provide all required fields.".
Proof.
  destruct (address_on_the_equator_is_refused
              Example.engine Example.number_text Example.parseFloat
              (Results [("0", "109.3425")])
              (Some (0 # 1), Some (1093425 # 10000)) Example.page initial)
    as (p' & Hsub & Hstatus & _).
  - reflexivity.
  - left. reflexivity.
  - exists p'. split; [exact Hsub | now rewrite Hstatus].
Defined.

(** X20.  Whatever a submission runs into, when it is over the button
    of its form is enabled again, without [dataset.originalText], and
    reads what [dataset.originalText] held before the submission, or,
    when that was absent or empty, the loading text, [Searching...] or
    [Registering...]; the label passed on finishing is not used.  The
    button of the other form is as it was. *)
Theorem button_after_a_submission :
  forall (E : Engine) (number_text : Q -> string) (toFixed2 : R -> string)
         (parseFloat : string -> option Q) (s : Submission) (p : Page)
         (w : World) (p' : Page) (w' : World),
    submit number_text toFixed2 parseFloat s (p, w) = Some (p', w') ->
    match s with
    | SeekerForm _ _ =>
        searchBtn p'
        = Dom.mkButton false
            (Dom.or_else (Dom.originalText (searchBtn p)) "Searching...")
            None
        /\ registerBtn p' = registerBtn p
    | DonorForm _ _ =>
        registerBtn p'
        = Dom.mkButton false
            (Dom.or_else (Dom.originalText (registerBtn p)) "Registering...")
            None
        /\ searchBtn p' = searchBtn p
    end.
Proof.
  assert (forall button t t',
             Dom.setLoadingState (Dom.setLoadingState button true t) false t'
             = Dom.mkButton false (Dom.or_else (Dom.originalText button) t)
                            None) as Hcycle.
  { intros button t t'. rewrite begin_loading, end_loading.
    cbn [Dom.disabled Dom.textContent Dom.originalText]. f_equal.
    destruct (Dom.originalText button) as [saved|]; cbn [Dom.present].
    - destruct (String.eqb saved "") eqn:Hs; cbn [negb Dom.or_else].
      + rewrite Hs. now destruct (String.eqb t "").
      + now rewrite Hs.
    - cbn [Dom.or_else]. now destruct (String.eqb t ""). }
  intros E number_text toFixed2 parseFloat [g net|n net] p w p' w' H;
    simpl in H.
  - apply seekerSubmit_inv in H as (p1 & Htry & ->).
    destruct (seeker_try_inert _ _ _ _ _ _ _ _ Htry) as (Hs & Hr).
    cbn [searchBtn registerBtn set_searchBtn]. rewrite Hs, Hr.
    split; [apply Hcycle | reflexivity].
  - apply donorSubmit_inv in H as (p1 & Htry & ->).
    apply donor_try_keeps in Htry as (_ & Hs & Hr).
    cbn [searchBtn registerBtn set_registerBtn]. rewrite Hs, Hr.
    split; [apply Hcycle | reflexivity].
Qed.

Lemma button_after_a_submission_witness :
  exists p' w',
    submit (E := Example.engine) Example.number_text Example.toFixed2
           Example.parseFloat (SeekerForm NoGeolocation Reached)
           (Example.page, initial)
    = Some (p', w')
    /\ searchBtn p' = Dom.mkButton false "Searching..." None.
Proof.
  eexists. eexists.
  refine ((fun H => conj H (proj1 (button_after_a_submission
                                     Example.engine Example.number_text
                                     Example.toFixed2 Example.parseFloat
                                     (SeekerForm NoGeolocation Reached)
                                     Example.page initial _ _ H))) _).
  reflexivity.
Defined.
